(** * YamlDotNet.Core.ScalarEvent

    A shallow embedding of [src/YamlDotNet.Core/ScalarEvent.cpp]: the scalar
    event of a YAML event stream, read lazily from a record of the native
    parser or built by a caller and written to a record for the native emitter.

    The object is a mutable managed object whose accessors fill caches, call
    the text codec, allocate and free native buffers and may raise; the methods
    are therefore written in a state-and-exception monad over a [Machine] that
    holds the object, the native heap and the log of the calls that leave the
    class. *)

From Stdlib Require Import ZArith List Lia.
From Stdlib.Strings Require Import Ascii String Byte.
From Stdlib.Numbers Require Import DecimalString.
From stdpp Require Import base option gmap.

Local Open Scope Z_scope.

(** ** Managed and native data *)

Module System.
(** [System::Char] is a UTF-16 code unit, [System::String] a sequence of
    them. A handle [String^] may be [nullptr]: it is an
    [option System.String]. *)
Definition Char : Type := Z.
Definition String : Type := list Char.

(** A narrow literal of the source as a managed string. *)
Definition literal (s : string) : String :=
  List.map (fun c => Z.of_N (N_of_ascii c)) (list_ascii_of_string s).

(** [Int32::ToString(CultureInfo::InvariantCulture)]: decimal digits, with a
    leading minus sign for negative numbers. *)
Definition Int32_ToString (n : Z) : String :=
  literal (NilZero.string_of_int (Z.to_int n)).
End System.

(** [yaml_scalar_style_t] of libyaml. *)
Inductive yaml_scalar_style_t : Type :=
  | YAML_ANY_SCALAR_STYLE
  | YAML_PLAIN_SCALAR_STYLE
  | YAML_SINGLE_QUOTED_SCALAR_STYLE
  | YAML_DOUBLE_QUOTED_SCALAR_STYLE
  | YAML_LITERAL_SCALAR_STYLE
  | YAML_FOLDED_SCALAR_STYLE.

(** What a [yaml_char_t*] points to: nothing ([NULL]) or the bytes before the
    terminator. *)
Definition yaml_chars : Type := option (list byte).

(** The [data.scalar] member of libyaml's [yaml_event_t]. The header is not
    part of the sources; the fields are the ones the class reads. [length]
    is a [size_t], carried as its value; the three flags are [int]s. *)
Record yaml_event_t : Type := {
  scalar_anchor : yaml_chars;
  scalar_tag : yaml_chars;
  scalar_value : yaml_chars;
  scalar_length : Z;
  scalar_plain_implicit : Z;
  scalar_quoted_implicit : Z;
  scalar_style : yaml_scalar_style_t
}.

Module ScalarStyle.
(** Modelled from the spec: the enumeration [ScalarStyle] is declared in a
    header that is not among the sources. The data model lists its members
    as Plain, SingleQuoted, DoubleQuoted, Literal, Folded and Any. *)
Inductive t : Type := Plain | SingleQuoted | DoubleQuoted | Literal | Folded | Any.

(** Modelled from the spec: the cast [(ScalarStyle)nativeEvent->data.scalar.style]
    of the read-path constructor, "style (mapped from the record's style
    code)": each native style is taken to the member of the same name. *)
Definition of_native (c : yaml_scalar_style_t) : t :=
  match c with
  | YAML_ANY_SCALAR_STYLE => Any
  | YAML_PLAIN_SCALAR_STYLE => Plain
  | YAML_SINGLE_QUOTED_SCALAR_STYLE => SingleQuoted
  | YAML_DOUBLE_QUOTED_SCALAR_STYLE => DoubleQuoted
  | YAML_LITERAL_SCALAR_STYLE => Literal
  | YAML_FOLDED_SCALAR_STYLE => Folded
  end.

(** [Enum::ToString]: the name of the member. *)
Definition ToString (s : t) : System.String :=
  System.literal
    match s with
    | Plain => "Plain"
    | SingleQuoted => "SingleQuoted"
    | DoubleQuoted => "DoubleQuoted"
    | Literal => "Literal"
    | Folded => "Folded"
    | Any => "Any"
    end.
End ScalarStyle.

(** The boxed arguments [String::Format] receives from [ToString]: a string
    handle (a narrow literal of the source is converted to one), an [int] or
    a [ScalarStyle]. *)
Inductive Object : Type :=
  | Object_String (s : option System.String)
  | Object_Int32 (n : Z)
  | Object_ScalarStyle (s : ScalarStyle.t).

(** The text [String::Format] puts in place of an item; a null argument gives
    the empty string. *)
Definition Object_ToString (o : Object) : System.String :=
  match o with
  | Object_String (Some s) => s
  | Object_String None => []
  | Object_Int32 n => System.Int32_ToString n
  | Object_ScalarStyle s => ScalarStyle.ToString s
  end.

(** [String::Format(CultureInfo::InvariantCulture, format, args)] for format
    strings whose items are of the shape {d} with d one decimal digit, as the
    only format string of the class is. Text outside the items is copied. An
    index past the arguments makes the library raise a FormatException; the
    format string of the class has eight items for eight arguments, and here
    such an item is copied as text. *)
Fixpoint String_Format (format : string) (args : list Object) : System.String :=
  match format with
  | EmptyString => []
  | String "{"%char (String d (String "}"%char rest) as tail') =>
      match args !! (nat_of_ascii d - 48)%nat with
      | Some o => Object_ToString o ++ String_Format rest args
      | None => System.literal "{" ++ String_Format tail' args
      end
  | String c rest => Z.of_N (N_of_ascii c) :: String_Format rest args
  end.

(** The fields of a [ScalarEvent]. [NativeEvent] is the pointer kept by the
    base class [YamlEvent] ([NULL] for an event built by a caller); the record
    it points to is carried in place of the pointer. *)
Record ScalarEvent : Type := {
  NativeEvent : option yaml_event_t;
  anchor : option System.String;
  tag : option System.String;
  value : option System.String;
  style : ScalarStyle.t;
  isPlainImplicit : bool;
  isQuotedImplicit : bool
}.

Definition with_anchor (a : option System.String) (e : ScalarEvent) : ScalarEvent :=
  {| NativeEvent := NativeEvent e; anchor := a; tag := tag e; value := value e;
     style := style e; isPlainImplicit := isPlainImplicit e;
     isQuotedImplicit := isQuotedImplicit e |}.

Definition with_tag (t : option System.String) (e : ScalarEvent) : ScalarEvent :=
  {| NativeEvent := NativeEvent e; anchor := anchor e; tag := t; value := value e;
     style := style e; isPlainImplicit := isPlainImplicit e;
     isQuotedImplicit := isQuotedImplicit e |}.

Definition with_value (v : option System.String) (e : ScalarEvent) : ScalarEvent :=
  {| NativeEvent := NativeEvent e; anchor := anchor e; tag := tag e; value := v;
     style := style e; isPlainImplicit := isPlainImplicit e;
     isQuotedImplicit := isQuotedImplicit e |}.

(** ** The collaborators of the class *)

(** [StringConverter::Convert], in both directions. StringConverter.h is not
    among the sources: the two overloads are parameters of the development.
    [to_text] is [Convert(const yaml_char_t* )], [to_bytes] gives the contents
    of the buffer that [Convert(String^)] allocates, or [None] when it returns
    [NULL]. *)
Class StringConverter : Type := {
  to_text : yaml_chars -> option System.String;
  to_bytes : option System.String -> yaml_chars
}.

(** [yaml_scalar_event_initialize] of libyaml: from the record the output
    pointer designates and the seven arguments, the [int] it returns and the
    record it leaves behind. *)
Class Emitter : Type := {
  scalar_event_initialize :
    yaml_event_t -> yaml_chars -> yaml_chars -> yaml_chars ->
    Z -> Z -> Z -> yaml_scalar_style_t -> Z * yaml_event_t
}.

(** ** Machine state, effects and exceptions *)

Inductive Exception : Type := NullReferenceException | YamlException.

Inductive Outcome (A : Type) : Type :=
  | Return (a : A)
  | Throw (e : Exception).
Arguments Return {A} a.
Arguments Throw {A} e.

(** A call that leaves the class. The initialize primitive is logged with the
    contents of the buffers it is handed. *)
Inductive Call : Type :=
  | Call_Convert_to_text (bytes : yaml_chars)
  | Call_Convert_to_bytes (text : option System.String)
  | Call_scalar_event_initialize
      (anchorBuffer tagBuffer valueBuffer : yaml_chars)
      (length plain_implicit quoted_implicit : Z) (style : yaml_scalar_style_t)
  | Call_delete (buffer : positive).

Record Machine : Type := {
  this : ScalarEvent;                  (* the object the method runs on *)
  heap : gmap positive (list byte);    (* live [new yaml_char_t[]] blocks *)
  output : yaml_event_t;               (* the record [CreateEvent] writes to *)
  calls : list Call                    (* oldest first *)
}.

Definition M (A : Type) : Type := Machine -> Outcome A * Machine.

#[global] Instance M_ret : MRet M := fun A a m => (Return a, m).

#[global] Instance M_bind : MBind M := fun A B f c m =>
  match c m with
  | (Return a, m') => f a m'
  | (Throw e, m') => (Throw e, m')
  end.

Definition throw {A : Type} (e : Exception) : M A := fun m => (Throw e, m).

Definition get_this : M ScalarEvent := fun m => (Return (this m), m).

Definition set_this (e : ScalarEvent) : M unit := fun m =>
  (Return tt, {| this := e; heap := heap m; output := output m; calls := calls m |}).

Definition log (c : Call) : M unit := fun m =>
  (Return tt,
   {| this := this m; heap := heap m; output := output m; calls := calls m ++ [c] |}).

(** [new yaml_char_t[n]] filled with [bs]: a block at an address that is not
    live. *)
Definition new_array (bs : list byte) : M positive := fun m =>
  let p := fresh (dom (heap m)) in
  (Return p,
   {| this := this m; heap := <[p := bs]> (heap m); output := output m;
      calls := calls m |}).

(** [delete[] p]. *)
Definition delete_array (p : positive) : M unit := fun m =>
  (Return tt,
   {| this := this m; heap := delete p (heap m); output := output m;
      calls := calls m ++ [Call_delete p] |}).

(** [if(buffer != NULL) { delete[] buffer; }] *)
Definition delete_if_not_NULL (buffer : option positive) : M unit :=
  match buffer with
  | Some p => delete_array p
  | None => mret tt
  end.

(** What the primitive finds behind a buffer pointer. *)
Definition buffer_contents (h : gmap positive (list byte)) (p : option positive) :
    yaml_chars :=
  match p with
  | Some q => h !! q
  | None => None
  end.

(** The conversion of a [size_t] to the [int] a property returns: the low 32
    bits, read as a signed number. *)
Definition int_of_size_t (n : Z) : Z :=
  (n + 2 ^ 31) mod 2 ^ 32 - 2 ^ 31.

(** [text->Length] on a handle: a null handle raises. *)
Definition String_Length (text : option System.String) : M Z :=
  match text with
  | Some s => mret (Z.of_nat (List.length s))
  | None => throw NullReferenceException
  end.

(** ** The class *)

Section ScalarEvent_methods.
Context {converter : StringConverter} {emitter : Emitter}.

(** [StringConverter::Convert(const yaml_char_t* )] *)
Definition Convert_to_text (bytes : yaml_chars) : M (option System.String) :=
  log (Call_Convert_to_text bytes);;
  mret (to_text bytes).

(** [StringConverter::Convert(String^)]: [NULL], or a fresh block. *)
Definition Convert_to_bytes (text : option System.String) : M (option positive) :=
  log (Call_Convert_to_bytes text);;
  match to_bytes text with
  | Some bs => p ← new_array bs; mret (Some p)
  | None => mret None
  end.

(** The call of the primitive on the record [nativeEvent] points to. *)
Definition yaml_scalar_event_initialize
    (anchorBuffer tagBuffer valueBuffer : option positive)
    (length plain_implicit quoted_implicit : Z) (style : yaml_scalar_style_t) : M Z :=
  fun m =>
    let contents := buffer_contents (heap m) in
    let r := scalar_event_initialize (output m)
               (contents anchorBuffer) (contents tagBuffer) (contents valueBuffer)
               length plain_implicit quoted_implicit style in
    (Return (fst r),
     {| this := this m; heap := heap m; output := snd r;
        calls := calls m ++
          [Call_scalar_event_initialize
             (contents anchorBuffer) (contents tagBuffer) (contents valueBuffer)
             length plain_implicit quoted_implicit style] |}).

(** *** Constructors *)

(** [ScalarEvent(const yaml_event_t* nativeEvent)]. The constructor reads
    through the pointer: its argument here is the record pointed to. The
    three handles are not initialised by it and start out null. *)
Definition ScalarEvent_ctor_native (nativeEvent : yaml_event_t) : ScalarEvent :=
  {| NativeEvent := Some nativeEvent;
     anchor := None; tag := None; value := None;
     style := ScalarStyle.of_native (scalar_style nativeEvent);
     isPlainImplicit := negb (scalar_plain_implicit nativeEvent =? 0);
     isQuotedImplicit := negb (scalar_quoted_implicit nativeEvent =? 0) |}.

(** [ScalarEvent(String^ _value, String^ _tag, String^ _anchor,
    ScalarStyle _style, bool _isPlainImplicit, bool _isQuotedImplicit)] *)
Definition ScalarEvent_ctor6 (_value _tag _anchor : option System.String)
    (_style : ScalarStyle.t) (_isPlainImplicit _isQuotedImplicit : bool) : ScalarEvent :=
  {| NativeEvent := None;
     anchor := _anchor; tag := _tag; value := _value;
     style := _style;
     isPlainImplicit := _isPlainImplicit;
     isQuotedImplicit := _isQuotedImplicit |}.

(** [ScalarEvent(String^ _value)] *)
Definition ScalarEvent_ctor1 (_value : option System.String) : ScalarEvent :=
  {| NativeEvent := None;
     anchor := None; tag := None; value := _value;
     style := ScalarStyle.Plain; isPlainImplicit := true; isQuotedImplicit := true |}.

(** [ScalarEvent(String^ _value, String^ _tag)] *)
Definition ScalarEvent_ctor2 (_value _tag : option System.String) : ScalarEvent :=
  {| NativeEvent := None;
     anchor := None; tag := _tag; value := _value;
     style := ScalarStyle.Plain; isPlainImplicit := true; isQuotedImplicit := true |}.

(** [ScalarEvent(String^ _value, String^ _tag, String^ _anchor)] *)
Definition ScalarEvent_ctor3 (_value _tag _anchor : option System.String) : ScalarEvent :=
  {| NativeEvent := None;
     anchor := _anchor; tag := _tag; value := _value;
     style := ScalarStyle.Plain; isPlainImplicit := true; isQuotedImplicit := true |}.

(** [ScalarEvent(String^ _value, String^ _tag, String^ _anchor, ScalarStyle _style)] *)
Definition ScalarEvent_ctor4 (_value _tag _anchor : option System.String)
    (_style : ScalarStyle.t) : ScalarEvent :=
  {| NativeEvent := None;
     anchor := _anchor; tag := _tag; value := _value;
     style := _style; isPlainImplicit := true; isQuotedImplicit := true |}.

(** *** Properties *)

(** [String^ ScalarEvent::Anchor::get()] *)
Definition Anchor_get : M (option System.String) :=
  e ← get_this;
  match anchor e, NativeEvent e with
  | None, Some nativeEvent =>
      a ← Convert_to_text (scalar_anchor nativeEvent);
      set_this (with_anchor a e);;
      mret a
  | _, _ => mret (anchor e)
  end.

(** [String^ ScalarEvent::Tag::get()] *)
Definition Tag_get : M (option System.String) :=
  e ← get_this;
  match tag e, NativeEvent e with
  | None, Some nativeEvent =>
      t ← Convert_to_text (scalar_tag nativeEvent);
      set_this (with_tag t e);;
      mret t
  | _, _ => mret (tag e)
  end.

(** [String^ ScalarEvent::Value::get()] *)
Definition Value_get : M (option System.String) :=
  e ← get_this;
  match value e, NativeEvent e with
  | None, Some nativeEvent =>
      v ← Convert_to_text (scalar_value nativeEvent);
      set_this (with_value v e);;
      mret v
  | _, _ => mret (value e)
  end.

(** [int ScalarEvent::Length::get()]. The field of the record is a [size_t]
    and the property an [int]: the [return] converts. *)
Definition Length_get : M Z :=
  e ← get_this;
  match NativeEvent e with
  | Some nativeEvent => mret (int_of_size_t (scalar_length nativeEvent))
  | None => String_Length (value e)
  end.

(** [bool ScalarEvent::IsPlainImplicit::get()] *)
Definition IsPlainImplicit_get : M bool :=
  e ← get_this; mret (isPlainImplicit e).

(** [bool ScalarEvent::IsQuotedImplicit::get()] *)
Definition IsQuotedImplicit_get : M bool :=
  e ← get_this; mret (isQuotedImplicit e).

(** [ScalarStyle ScalarEvent::Style::get()] *)
Definition Style_get : M ScalarStyle.t :=
  e ← get_this; mret (style e).

(** [String^ ScalarEvent::ToString()]. [GetType()->Name] is the name of the
    class. The language leaves open in which order the arguments of the call
    are evaluated; here they are read in the order they are written. *)
Definition ToString : M System.String :=
  a ← Anchor_get;
  t ← Tag_get;
  v ← Value_get;
  n ← Length_get;
  p ← IsPlainImplicit_get;
  q ← IsPlainImplicit_get;
  s ← Style_get;
  mret (String_Format "{0} {1} {2} {3} {4} {5} {6} {7}"
          [ Object_String (Some (System.literal "ScalarEvent"));
            Object_String a;
            Object_String t;
            Object_String v;
            Object_Int32 n;
            Object_String (Some (System.literal
              (if p : bool then "plain_implicit" else "plain_explicit")));
            Object_String (Some (System.literal
              (if q : bool then "quoted_implicit" else "quoted_explicit")));
            Object_ScalarStyle s ]).

(** [void ScalarEvent::CreateEvent(yaml_event_t* nativeEvent)]; the record
    [nativeEvent] points to is [output]. *)
Definition CreateEvent : M unit :=
  a ← Anchor_get;
  anchorBuffer ← Convert_to_bytes a;
  t ← Tag_get;
  tagBuffer ← Convert_to_bytes t;
  v ← Value_get;
  valueBuffer ← Convert_to_bytes v;
  v' ← Value_get;
  length ← String_Length v';
  p ← IsPlainImplicit_get;
  q ← IsQuotedImplicit_get;
  result ← yaml_scalar_event_initialize
             anchorBuffer tagBuffer valueBuffer
             length
             (if p : bool then 1 else 0)
             (if q : bool then 1 else 0)
             YAML_ANY_SCALAR_STYLE;
  delete_if_not_NULL valueBuffer;;
  delete_if_not_NULL tagBuffer;;
  delete_if_not_NULL anchorBuffer;;
  if negb (result =? 1) then throw YamlException else mret tt.
End ScalarEvent_methods.

(** ** Collaborators for the concrete runs *)

Module Sample.
Definition code (b : byte) : Z := Z.of_N (Byte.to_N b).

Definition octet (n : Z) : byte :=
  match Byte.of_N (Z.to_N n) with
  | Some b => b
  | None => "000"%byte
  end.

(** UTF-8 to UTF-16 on well-formed input: sequences of one, two and three
    bytes give one code unit, sequences of four bytes a surrogate pair. A
    sequence cut short by the end of the buffer gives U+FFFD. *)
Fixpoint utf8_decode (bs : list byte) : System.String :=
  match bs with
  | [] => []
  | b0 :: r0 =>
      if code b0 <? 0x80 then code b0 :: utf8_decode r0
      else
        match r0 with
        | [] => [0xFFFD]
        | b1 :: r1 =>
            if code b0 <? 0xE0 then
              Z.lor (Z.shiftl (Z.land (code b0) 0x1F) 6) (Z.land (code b1) 0x3F)
                :: utf8_decode r1
            else
              match r1 with
              | [] => [0xFFFD]
              | b2 :: r2 =>
                  if code b0 <? 0xF0 then
                    Z.lor (Z.shiftl (Z.land (code b0) 0x0F) 12)
                      (Z.lor (Z.shiftl (Z.land (code b1) 0x3F) 6)
                         (Z.land (code b2) 0x3F))
                      :: utf8_decode r2
                  else
                    match r2 with
                    | [] => [0xFFFD]
                    | b3 :: r3 =>
                        let u :=
                          Z.lor (Z.shiftl (Z.land (code b0) 0x07) 18)
                            (Z.lor (Z.shiftl (Z.land (code b1) 0x3F) 12)
                               (Z.lor (Z.shiftl (Z.land (code b2) 0x3F) 6)
                                  (Z.land (code b3) 0x3F))) - 0x10000 in
                        (0xD800 + Z.shiftr u 10)
                          :: (0xDC00 + Z.land u 0x3FF) :: utf8_decode r3
                    end
              end
        end
  end.

Definition utf8_three (c : Z) : list byte :=
  [ octet (Z.lor 0xE0 (Z.shiftr c 12));
    octet (Z.lor 0x80 (Z.land (Z.shiftr c 6) 0x3F));
    octet (Z.lor 0x80 (Z.land c 0x3F)) ].

(** UTF-16 to UTF-8: a high surrogate followed by a low one gives four bytes,
    any other code unit one, two or three. *)
Fixpoint utf8_encode (s : System.String) : list byte :=
  match s with
  | [] => []
  | c :: r =>
      if c <? 0x80 then octet c :: utf8_encode r
      else if c <? 0x800 then
        octet (Z.lor 0xC0 (Z.shiftr c 6))
          :: octet (Z.lor 0x80 (Z.land c 0x3F)) :: utf8_encode r
      else
        match r with
        | d :: r' =>
            if (0xD800 <=? c) && (c <? 0xDC00) && (0xDC00 <=? d) && (d <? 0xE000) then
              let u := 0x10000 + Z.shiftl (c - 0xD800) 10 + (d - 0xDC00) in
              octet (Z.lor 0xF0 (Z.shiftr u 18))
                :: octet (Z.lor 0x80 (Z.land (Z.shiftr u 12) 0x3F))
                :: octet (Z.lor 0x80 (Z.land (Z.shiftr u 6) 0x3F))
                :: octet (Z.lor 0x80 (Z.land u 0x3F)) :: utf8_encode r'
            else utf8_three c ++ utf8_encode r
        | [] => utf8_three c
        end
  end.

(** Modelled from the spec: StringConverter.h and its implementation are not
    among the sources. The specification gives "Convert(raw bytes) -> text"
    and "Convert(text) -> newly allocated raw bytes suitable for the wire
    initializer, or null for absent/empty input". For a null buffer it says
    that "absent anchor/tag decode to an absent/empty result"; the data model
    has the anchor and the tag "absent if none" and the Anchor property
    returns a "cached/decoded value (possibly absent)", so a null buffer is
    decoded to the null handle. The encoding of the text itself is UTF-8. *)
Definition utf8 : StringConverter :=
  {| to_text bytes :=
       match bytes with
       | Some bs => Some (utf8_decode bs)
       | None => None
       end;
     to_bytes text :=
       match text with
       | Some (c :: s) => Some (utf8_encode (c :: s))
       | Some [] => None
       | None => None
       end |}.

(** A primitive that always succeeds: it returns 1 and fills the record from
    its arguments. *)
Definition succeeding : Emitter :=
  {| scalar_event_initialize _ anchor tag value length plain quoted style :=
       (1, {| scalar_anchor := anchor; scalar_tag := tag; scalar_value := value;
              scalar_length := length; scalar_plain_implicit := plain;
              scalar_quoted_implicit := quoted; scalar_style := style |}) |}.

(** A primitive that always fails: it returns 0 and leaves the record as it
    found it. *)
Definition failing : Emitter :=
  {| scalar_event_initialize event _ _ _ _ _ _ _ := (0, event) |}.

Definition bytes (s : string) : list byte := list_byte_of_string s.

(** A record that has not been written to. *)
Definition blank : yaml_event_t :=
  {| scalar_anchor := None; scalar_tag := None; scalar_value := None;
     scalar_length := 0; scalar_plain_implicit := 0; scalar_quoted_implicit := 0;
     scalar_style := YAML_ANY_SCALAR_STYLE |}.

(** The record of the round-trip scenario of the specification: no anchor,
    tag "!!str", value "hello". *)
Definition hello : yaml_event_t :=
  {| scalar_anchor := None; scalar_tag := Some (bytes "!!str");
     scalar_value := Some (bytes "hello");
     scalar_length := 5; scalar_plain_implicit := 1; scalar_quoted_implicit := 0;
     scalar_style := YAML_PLAIN_SCALAR_STYLE |}.

(** A record with all three texts: anchor "a1", tag "!!str", value "x". *)
Definition anchored : yaml_event_t :=
  {| scalar_anchor := Some (bytes "a1"); scalar_tag := Some (bytes "!!str");
     scalar_value := Some (bytes "x");
     scalar_length := 1; scalar_plain_implicit := 0; scalar_quoted_implicit := 1;
     scalar_style := YAML_DOUBLE_QUOTED_SCALAR_STYLE |}.

(** A value of five bytes and four characters: h, e-acute (C3 A9), l, l. *)
Definition hell : yaml_event_t :=
  {| scalar_anchor := None; scalar_tag := None;
     scalar_value := Some ["h"%byte; xc3; xa9; "l"%byte; "l"%byte];
     scalar_length := 5; scalar_plain_implicit := 1; scalar_quoted_implicit := 1;
     scalar_style := YAML_PLAIN_SCALAR_STYLE |}.

(** A machine about to run a method on [e]: nothing allocated, nothing
    called yet. *)
Definition start (e : ScalarEvent) : Machine :=
  {| this := e; heap := ∅; output := blank; calls := [] |}.
End Sample.

(** ** Observations used in the statements *)

Definition with_isQuotedImplicit (q : bool) (e : ScalarEvent) : ScalarEvent :=
  {| NativeEvent := NativeEvent e; anchor := anchor e; tag := tag e; value := value e;
     style := style e; isPlainImplicit := isPlainImplicit e;
     isQuotedImplicit := q |}.

Definition with_style (s : ScalarStyle.t) (e : ScalarEvent) : ScalarEvent :=
  {| NativeEvent := NativeEvent e; anchor := anchor e; tag := tag e; value := value e;
     style := s; isPlainImplicit := isPlainImplicit e;
     isQuotedImplicit := isQuotedImplicit e |}.

(** The same machine with another object under the method. *)
Definition on (e : ScalarEvent) (m : Machine) : Machine :=
  {| this := e; heap := heap m; output := output m; calls := calls m |}.

(** How many times the bytes-to-text overload of [Convert] was called. *)
Fixpoint to_text_calls (l : list Call) : nat :=
  match l with
  | [] => 0
  | Call_Convert_to_text _ :: l' => S (to_text_calls l')
  | _ :: l' => to_text_calls l'
  end.

(** The calls of the initialize primitive, oldest first. *)
Fixpoint initialize_calls (l : list Call) : list Call :=
  match l with
  | [] => []
  | Call_scalar_event_initialize a t v n p q s :: l' =>
      Call_scalar_event_initialize a t v n p q s :: initialize_calls l'
  | _ :: l' => initialize_calls l'
  end.

(** [n] reads of a property in succession, results in order. *)
Fixpoint read_times {A : Type} (n : nat) (get : M A) : M (list A) :=
  match n with
  | O => mret []
  | S n' => x ← get; xs ← read_times n' get; mret (x :: xs)
  end.

(** What a read of a lazily decoded property returns, and the call it makes,
    as functions of the cache, the record pointer and the field of the
    record. *)
Definition lazy_text {converter : StringConverter} (cache : option System.String)
    (native : option yaml_event_t) (field : yaml_event_t -> yaml_chars) :
    option System.String :=
  match cache, native with
  | None, Some nativeEvent => to_text (field nativeEvent)
  | _, _ => cache
  end.

Definition lazy_calls (cache : option System.String)
    (native : option yaml_event_t) (field : yaml_event_t -> yaml_chars) : list Call :=
  match cache, native with
  | None, Some nativeEvent => [Call_Convert_to_text (field nativeEvent)]
  | _, _ => []
  end.

(** The native heap around [Convert(String^)] and [delete[]]: the pointer
    and the heap after allocating a buffer with the given contents ([NULL]
    and the same heap when there is nothing to allocate), the heap after
    releasing a pointer, and the calls releasing it makes. *)
Definition alloc (contents : yaml_chars) (h : gmap positive (list byte)) :
    option positive * gmap positive (list byte) :=
  match contents with
  | Some bs => (Some (fresh (dom h)), <[fresh (dom h) := bs]> h)
  | None => (None, h)
  end.

Definition release (p : option positive) (h : gmap positive (list byte)) :
    gmap positive (list byte) :=
  match p with
  | Some q => delete q h
  | None => h
  end.

Definition delete_calls (p : option positive) : list Call :=
  match p with
  | Some q => [Call_delete q]
  | None => []
  end.

(** The pointer [p] designates a live block holding [contents], or both are
    null. *)
Definition points_to (h : gmap positive (list byte)) (p : option positive)
    (contents : yaml_chars) : Prop :=
  match p, contents with
  | Some q, Some bs => h !! q = Some bs
  | None, None => True
  | _, _ => False
  end.

(** The style and the two implicit flags of [e'] are those of [e]. *)
Definition same_flags (e e' : ScalarEvent) : Prop :=
  style e' = style e /\
  isPlainImplicit e' = isPlainImplicit e /\
  isQuotedImplicit e' = isQuotedImplicit e.

(** The object with the record behind its pointer replaced: the parser has
    written another event into the same [yaml_event_t]. *)
Definition with_NativeEvent (r : option yaml_event_t) (e : ScalarEvent) : ScalarEvent :=
  {| NativeEvent := r; anchor := anchor e; tag := tag e; value := value e;
     style := style e; isPlainImplicit := isPlainImplicit e;
     isQuotedImplicit := isQuotedImplicit e |}.

(** The [delete[]] calls of a log. *)
Definition is_delete (c : Call) : bool :=
  match c with
  | Call_delete _ => true
  | _ => false
  end.

Fixpoint delete_count (l : list Call) : nat :=
  match l with
  | [] => 0
  | c :: l' => ((if is_delete c then 1 else 0) + delete_count l')%nat
  end.

(** The number of blocks [Convert(String^)] allocates for a result: none for
    [NULL], one otherwise. *)
Definition allocated (contents : yaml_chars) : nat :=
  match contents with
  | Some _ => 1
  | None => 0
  end.

(** Every read of [m'] gives what the same read of [m] gives. *)
Definition same_reads {converter : StringConverter} (m m' : Machine) : Prop :=
  fst (Anchor_get m') = fst (Anchor_get m) /\
  fst (Tag_get m') = fst (Tag_get m) /\
  fst (Value_get m') = fst (Value_get m) /\
  fst (Length_get m') = fst (Length_get m) /\
  fst (IsPlainImplicit_get m') = fst (IsPlainImplicit_get m) /\
  fst (IsQuotedImplicit_get m') = fst (IsQuotedImplicit_get m) /\
  fst (Style_get m') = fst (Style_get m) /\
  fst (ToString m') = fst (ToString m).

(** ** Properties *)

(** A length that fits an [int] is returned as it is; the first that does not
    comes out negative. *)
Lemma int_of_size_t_fits (n : Z) :
  0 <= n < 2 ^ 31 -> int_of_size_t n = n.
Proof.
  intros H. unfold int_of_size_t. rewrite Z.mod_small; lia.
Qed.

Lemma int_of_size_t_range (n : Z) :
  - 2 ^ 31 <= int_of_size_t n < 2 ^ 31.
Proof.
  unfold int_of_size_t.
  pose proof (Z.mod_pos_bound (n + 2 ^ 31) (2 ^ 32)). lia.
Qed.

Lemma to_text_calls_app (l1 l2 : list Call) :
  to_text_calls (l1 ++ l2) = (to_text_calls l1 + to_text_calls l2)%nat.
Proof.
  induction l1 as [|c l1 IH]; [reflexivity|].
  destruct c; simpl; rewrite IH; reflexivity.
Qed.

Lemma initialize_calls_app (l1 l2 : list Call) :
  initialize_calls (l1 ++ l2) = initialize_calls l1 ++ initialize_calls l2.
Proof.
  induction l1 as [|c l1 IH]; [reflexivity|].
  destruct c; simpl; rewrite IH; reflexivity.
Qed.

Section Accessors.
Context {converter : StringConverter}.

(** A property whose text is already cached returns it and touches nothing. *)
Lemma Anchor_get_cached (m : Machine) (txt : System.String) :
  anchor (this m) = Some txt -> Anchor_get m = (Return (Some txt), m).
Proof.
  intros H. unfold Anchor_get, get_this, mbind, M_bind. rewrite H. reflexivity.
Qed.

Lemma Tag_get_cached (m : Machine) (txt : System.String) :
  tag (this m) = Some txt -> Tag_get m = (Return (Some txt), m).
Proof.
  intros H. unfold Tag_get, get_this, mbind, M_bind. rewrite H. reflexivity.
Qed.

Lemma Value_get_cached (m : Machine) (txt : System.String) :
  value (this m) = Some txt -> Value_get m = (Return (Some txt), m).
Proof.
  intros H. unfold Value_get, get_this, mbind, M_bind. rewrite H. reflexivity.
Qed.

(** A detached object never reaches the converter. *)
Lemma Anchor_get_detached (m : Machine) :
  NativeEvent (this m) = None -> Anchor_get m = (Return (anchor (this m)), m).
Proof.
  intros H. unfold Anchor_get, get_this, mbind, M_bind. rewrite H.
  destruct (anchor (this m)); reflexivity.
Qed.

Lemma Tag_get_detached (m : Machine) :
  NativeEvent (this m) = None -> Tag_get m = (Return (tag (this m)), m).
Proof.
  intros H. unfold Tag_get, get_this, mbind, M_bind. rewrite H.
  destruct (tag (this m)); reflexivity.
Qed.

Lemma Value_get_detached (m : Machine) :
  NativeEvent (this m) = None -> Value_get m = (Return (value (this m)), m).
Proof.
  intros H. unfold Value_get, get_this, mbind, M_bind. rewrite H.
  destruct (value (this m)); reflexivity.
Qed.

(** The first read of a bound object whose cache is still null. *)
Lemma Anchor_get_decodes (m : Machine) (nativeEvent : yaml_event_t) :
  NativeEvent (this m) = Some nativeEvent -> anchor (this m) = None ->
  Anchor_get m =
    (Return (to_text (scalar_anchor nativeEvent)),
     {| this := with_anchor (to_text (scalar_anchor nativeEvent)) (this m);
        heap := heap m; output := output m;
        calls := calls m ++ [Call_Convert_to_text (scalar_anchor nativeEvent)] |}).
Proof.
  intros Hn Hc. unfold Anchor_get, get_this, mbind, M_bind. rewrite Hn, Hc.
  reflexivity.
Qed.

Lemma Tag_get_decodes (m : Machine) (nativeEvent : yaml_event_t) :
  NativeEvent (this m) = Some nativeEvent -> tag (this m) = None ->
  Tag_get m =
    (Return (to_text (scalar_tag nativeEvent)),
     {| this := with_tag (to_text (scalar_tag nativeEvent)) (this m);
        heap := heap m; output := output m;
        calls := calls m ++ [Call_Convert_to_text (scalar_tag nativeEvent)] |}).
Proof.
  intros Hn Hc. unfold Tag_get, get_this, mbind, M_bind. rewrite Hn, Hc.
  reflexivity.
Qed.

Lemma Value_get_decodes (m : Machine) (nativeEvent : yaml_event_t) :
  NativeEvent (this m) = Some nativeEvent -> value (this m) = None ->
  Value_get m =
    (Return (to_text (scalar_value nativeEvent)),
     {| this := with_value (to_text (scalar_value nativeEvent)) (this m);
        heap := heap m; output := output m;
        calls := calls m ++ [Call_Convert_to_text (scalar_value nativeEvent)] |}).
Proof.
  intros Hn Hc. unfold Value_get, get_this, mbind, M_bind. rewrite Hn, Hc.
  reflexivity.
Qed.

(** Every read, in one equation. *)
Lemma Anchor_get_run (m : Machine) :
  let a := lazy_text (anchor (this m)) (NativeEvent (this m)) scalar_anchor in
  Anchor_get m =
    (Return a,
     {| this := with_anchor a (this m); heap := heap m; output := output m;
        calls := calls m ++
          lazy_calls (anchor (this m)) (NativeEvent (this m)) scalar_anchor |}).
Proof.
  destruct m as [[ne [a|] t v s p q] h o c]; destruct ne as [r|];
    cbn; rewrite ?app_nil_r; reflexivity.
Qed.

Lemma Tag_get_run (m : Machine) :
  let t := lazy_text (tag (this m)) (NativeEvent (this m)) scalar_tag in
  Tag_get m =
    (Return t,
     {| this := with_tag t (this m); heap := heap m; output := output m;
        calls := calls m ++
          lazy_calls (tag (this m)) (NativeEvent (this m)) scalar_tag |}).
Proof.
  destruct m as [[ne a [t|] v s p q] h o c]; destruct ne as [r|];
    cbn; rewrite ?app_nil_r; reflexivity.
Qed.

Lemma Value_get_run (m : Machine) :
  let v := lazy_text (value (this m)) (NativeEvent (this m)) scalar_value in
  Value_get m =
    (Return v,
     {| this := with_value v (this m); heap := heap m; output := output m;
        calls := calls m ++
          lazy_calls (value (this m)) (NativeEvent (this m)) scalar_value |}).
Proof.
  destruct m as [[ne a t [v|] s p q] h o c]; destruct ne as [r|];
    cbn; rewrite ?app_nil_r; reflexivity.
Qed.

Lemma Length_get_run (m : Machine) :
  Length_get m =
    (match NativeEvent (this m), value (this m) with
     | Some nativeEvent, _ => Return (int_of_size_t (scalar_length nativeEvent))
     | None, Some v => Return (Z.of_nat (List.length v))
     | None, None => Throw NullReferenceException
     end, m).
Proof.
  destruct m as [[ne a t v s p q] h o c]; destruct ne as [r|]; [reflexivity|].
  destruct v; reflexivity.
Qed.
End Accessors.

(** *** Construction on the write path *)

Section Write_path_constructors.
Context {converter : StringConverter}.

(** Claim C5. Each write-path constructor that leaves fields out sets them
    to the defaults: it builds the object the six-argument constructor
    builds with a null tag and anchor where they are not supplied, style
    Plain where it is not supplied and both implicit flags true; the object
    has no native record. In particular the one-argument constructor on "x"
    gives a null tag, a null anchor, style Plain, and both flags true, in
    the fields and through the properties. *)
Theorem constructor_defaults :
  (forall v, ScalarEvent_ctor1 v
             = ScalarEvent_ctor6 v None None ScalarStyle.Plain true true) /\
  (forall v t, ScalarEvent_ctor2 v t
               = ScalarEvent_ctor6 v t None ScalarStyle.Plain true true) /\
  (forall v t a, ScalarEvent_ctor3 v t a
                 = ScalarEvent_ctor6 v t a ScalarStyle.Plain true true) /\
  (forall v t a s, ScalarEvent_ctor4 v t a s
                   = ScalarEvent_ctor6 v t a s true true) /\
  (forall v t a s p q, NativeEvent (ScalarEvent_ctor6 v t a s p q) = None) /\
  (let e := ScalarEvent_ctor1 (Some (System.literal "x")) in
   tag e = None /\ anchor e = None /\ style e = ScalarStyle.Plain /\
   isPlainImplicit e = true /\ isQuotedImplicit e = true /\
   forall m,
     fst (Tag_get (on e m)) = Return None /\
     fst (Anchor_get (on e m)) = Return None /\
     fst (Style_get (on e m)) = Return ScalarStyle.Plain /\
     fst (IsPlainImplicit_get (on e m)) = Return true /\
     fst (IsQuotedImplicit_get (on e m)) = Return true).
Proof.
  repeat split; reflexivity.
Qed.

(** Claim C6. An object built by the six-argument constructor gives back,
    through Value, Tag, Anchor, Style, IsPlainImplicit and IsQuotedImplicit,
    exactly the six arguments; no read changes the machine, so the reads
    can be made in any order and any number of times. *)
Theorem full_constructor_fidelity
    (v t a : option System.String) (s : ScalarStyle.t) (p q : bool) (m : Machine) :
  let m' := on (ScalarEvent_ctor6 v t a s p q) m in
  Value_get m' = (Return v, m') /\
  Tag_get m' = (Return t, m') /\
  Anchor_get m' = (Return a, m') /\
  Style_get m' = (Return s, m') /\
  IsPlainImplicit_get m' = (Return p, m') /\
  IsQuotedImplicit_get m' = (Return q, m').
Proof.
  intros m'. repeat split.
  - apply (Value_get_detached m'). reflexivity.
  - apply (Tag_get_detached m'). reflexivity.
  - apply (Anchor_get_detached m'). reflexivity.
Qed.
End Write_path_constructors.

(** *** The read path *)

Section Read_path.
Context {converter : StringConverter}.

Lemma read_Anchor_cached (n : nat) (m : Machine) (txt : System.String) :
  anchor (this m) = Some txt ->
  read_times n Anchor_get m = (Return (replicate n (Some txt)), m).
Proof.
  intros H. induction n as [|n IH]; [reflexivity|].
  cbn [read_times]. unfold mbind, M_bind.
  rewrite (Anchor_get_cached m txt H), IH. reflexivity.
Qed.

Lemma read_Tag_cached (n : nat) (m : Machine) (txt : System.String) :
  tag (this m) = Some txt ->
  read_times n Tag_get m = (Return (replicate n (Some txt)), m).
Proof.
  intros H. induction n as [|n IH]; [reflexivity|].
  cbn [read_times]. unfold mbind, M_bind.
  rewrite (Tag_get_cached m txt H), IH. reflexivity.
Qed.

Lemma read_Value_cached (n : nat) (m : Machine) (txt : System.String) :
  value (this m) = Some txt ->
  read_times n Value_get m = (Return (replicate n (Some txt)), m).
Proof.
  intros H. induction n as [|n IH]; [reflexivity|].
  cbn [read_times]. unfold mbind, M_bind.
  rewrite (Value_get_cached m txt H), IH. reflexivity.
Qed.

(** A read that decodes to a null handle leaves the cache null, so the next
    read decodes again. *)
Lemma read_Anchor_absent (n : nat) (m : Machine) (nativeEvent : yaml_event_t) :
  NativeEvent (this m) = Some nativeEvent -> anchor (this m) = None ->
  to_text (scalar_anchor nativeEvent) = None ->
  fst (read_times n Anchor_get m) = Return (replicate n None) /\
  to_text_calls (calls (snd (read_times n Anchor_get m)))
    = (to_text_calls (calls m) + n)%nat.
Proof.
  intros Hn Hc Hd. revert m Hn Hc.
  induction n as [|n IH]; intros m Hn Hc.
  - cbn. split; [reflexivity | lia].
  - cbn [read_times]. unfold mbind, M_bind.
    rewrite (Anchor_get_decodes m nativeEvent Hn Hc), Hd.
    match goal with |- context [read_times n Anchor_get ?m1] =>
      destruct (IH m1 Hn eq_refl) as [Hr Hk]; destruct (read_times n Anchor_get m1) as [o m2]
    end.
    cbn in Hr, Hk. subst o. cbn. split; [reflexivity|].
    rewrite Hk, to_text_calls_app. cbn. lia.
Qed.

Lemma read_Tag_absent (n : nat) (m : Machine) (nativeEvent : yaml_event_t) :
  NativeEvent (this m) = Some nativeEvent -> tag (this m) = None ->
  to_text (scalar_tag nativeEvent) = None ->
  fst (read_times n Tag_get m) = Return (replicate n None) /\
  to_text_calls (calls (snd (read_times n Tag_get m)))
    = (to_text_calls (calls m) + n)%nat.
Proof.
  intros Hn Hc Hd. revert m Hn Hc.
  induction n as [|n IH]; intros m Hn Hc.
  - cbn. split; [reflexivity | lia].
  - cbn [read_times]. unfold mbind, M_bind.
    rewrite (Tag_get_decodes m nativeEvent Hn Hc), Hd.
    match goal with |- context [read_times n Tag_get ?m1] =>
      destruct (IH m1 Hn eq_refl) as [Hr Hk]; destruct (read_times n Tag_get m1) as [o m2]
    end.
    cbn in Hr, Hk. subst o. cbn. split; [reflexivity|].
    rewrite Hk, to_text_calls_app. cbn. lia.
Qed.

Lemma read_Value_absent (n : nat) (m : Machine) (nativeEvent : yaml_event_t) :
  NativeEvent (this m) = Some nativeEvent -> value (this m) = None ->
  to_text (scalar_value nativeEvent) = None ->
  fst (read_times n Value_get m) = Return (replicate n None) /\
  to_text_calls (calls (snd (read_times n Value_get m)))
    = (to_text_calls (calls m) + n)%nat.
Proof.
  intros Hn Hc Hd. revert m Hn Hc.
  induction n as [|n IH]; intros m Hn Hc.
  - cbn. split; [reflexivity | lia].
  - cbn [read_times]. unfold mbind, M_bind.
    rewrite (Value_get_decodes m nativeEvent Hn Hc), Hd.
    match goal with |- context [read_times n Value_get ?m1] =>
      destruct (IH m1 Hn eq_refl) as [Hr Hk]; destruct (read_times n Value_get m1) as [o m2]
    end.
    cbn in Hr, Hk. subst o. cbn. split; [reflexivity|].
    rewrite Hk, to_text_calls_app. cbn. lia.
Qed.
End Read_path.

(** *** The native heap *)

Lemma alloc_points_to (contents : yaml_chars) (h : gmap positive (list byte)) :
  points_to (snd (alloc contents h)) (fst (alloc contents h)) contents.
Proof.
  destruct contents as [bs|]; cbn; [|exact I]. apply lookup_insert_eq.
Qed.

Lemma points_to_alloc (h : gmap positive (list byte)) (p : option positive)
    (contents other : yaml_chars) :
  points_to h p contents -> points_to (snd (alloc other h)) p contents.
Proof.
  destruct other as [bs'|]; cbn; [|trivial].
  destruct p as [q|], contents as [bs|]; cbn; trivial.
  intros H. rewrite lookup_insert_ne; [exact H|].
  intros E. pose proof (is_fresh (dom h)) as F. rewrite E in F.
  apply F, elem_of_dom. rewrite H. eauto.
Qed.

Lemma points_to_contents (h : gmap positive (list byte)) (p : option positive)
    (contents : yaml_chars) :
  points_to h p contents -> buffer_contents h p = contents.
Proof.
  destruct p as [q|], contents as [bs|]; cbn; intros H; try contradiction;
    [exact H | reflexivity].
Qed.

Lemma release_alloc (contents : yaml_chars) (h : gmap positive (list byte)) :
  release (fst (alloc contents h)) (snd (alloc contents h)) = h.
Proof.
  destruct contents as [bs|]; cbn; [|reflexivity].
  rewrite delete_insert_eq. apply delete_id, not_elem_of_dom, is_fresh.
Qed.

Lemma lazy_text_idem {converter : StringConverter} (cache : option System.String)
    (native : option yaml_event_t) (field : yaml_event_t -> yaml_chars) :
  lazy_text (lazy_text cache native field) native field = lazy_text cache native field.
Proof.
  destruct cache as [s|], native as [r|]; cbn; try reflexivity.
  destruct (to_text (field r)) eqn:E; cbn; rewrite ?E; reflexivity.
Qed.

(** *** Symbolic runs of the two composite methods *)

Section Composite_methods.
Context {converter : StringConverter} {emitter : Emitter}.

Lemma Convert_to_bytes_run (text : option System.String) (m : Machine) :
  Convert_to_bytes text m =
    (Return (fst (alloc (to_bytes text) (heap m))),
     {| this := this m; heap := snd (alloc (to_bytes text) (heap m));
        output := output m; calls := calls m ++ [Call_Convert_to_bytes text] |}).
Proof.
  unfold Convert_to_bytes, alloc, mbind, M_bind, log.
  destruct (to_bytes text); reflexivity.
Qed.

Lemma delete_if_not_NULL_run (p : option positive) (m : Machine) :
  delete_if_not_NULL p m =
    (Return tt,
     {| this := this m; heap := release p (heap m); output := output m;
        calls := calls m ++ delete_calls p |}).
Proof.
  destruct p; cbn; [reflexivity|]. rewrite app_nil_r. destruct m; reflexivity.
Qed.

Ltac step E := rewrite E; cbv beta iota zeta; cbn [this heap output calls fst snd].

(** [CreateEvent] in one equation: with a null value it raises at
    [Value->Length], the buffers allocated so far still live; otherwise it
    calls the primitive, releases the three buffers and raises or returns by
    the result. *)
Lemma CreateEvent_run (m : Machine) :
  let e := this m in
  let a := lazy_text (anchor e) (NativeEvent e) scalar_anchor in
  let t := lazy_text (tag e) (NativeEvent e) scalar_tag in
  let v := lazy_text (value e) (NativeEvent e) scalar_value in
  let h1 := alloc (to_bytes a) (heap m) in
  let h2 := alloc (to_bytes t) (snd h1) in
  let h3 := alloc (to_bytes v) (snd h2) in
  let e' := with_value v (with_tag t (with_anchor a e)) in
  let converted :=
    (((((calls m
         ++ lazy_calls (anchor e) (NativeEvent e) scalar_anchor)
         ++ [Call_Convert_to_bytes a])
         ++ lazy_calls (tag e) (NativeEvent e) scalar_tag)
         ++ [Call_Convert_to_bytes t])
         ++ lazy_calls (value e) (NativeEvent e) scalar_value)
         ++ [Call_Convert_to_bytes v] in
  CreateEvent m =
    match v with
    | None =>
        (Throw NullReferenceException,
         {| this := e'; heap := snd h3; output := output m;
            calls := converted ++ lazy_calls None (NativeEvent e) scalar_value |})
    | Some s =>
        let r := scalar_event_initialize (output m)
                   (to_bytes a) (to_bytes t) (to_bytes v)
                   (Z.of_nat (List.length s))
                   (if isPlainImplicit e then 1 else 0)
                   (if isQuotedImplicit e then 1 else 0)
                   YAML_ANY_SCALAR_STYLE in
        (if negb (fst r =? 1) then Throw YamlException else Return tt,
         {| this := e'; heap := heap m; output := snd r;
            calls :=
              (((converted
                 ++ [Call_scalar_event_initialize
                       (to_bytes a) (to_bytes t) (to_bytes v)
                       (Z.of_nat (List.length s))
                       (if isPlainImplicit e then 1 else 0)
                       (if isQuotedImplicit e then 1 else 0)
                       YAML_ANY_SCALAR_STYLE])
                 ++ delete_calls (fst h3))
                 ++ delete_calls (fst h2))
                 ++ delete_calls (fst h1) |})
    end.
Proof.
  intros e a t v h1 h2 h3 e' converted.
  unfold CreateEvent, mbind, M_bind.
  step Anchor_get_run. step Convert_to_bytes_run.
  step Tag_get_run. step Convert_to_bytes_run.
  step Value_get_run. step Convert_to_bytes_run.
  step Value_get_run.
  cbn [with_anchor with_tag with_value NativeEvent anchor tag value style
       isPlainImplicit isQuotedImplicit].
  fold e a t v h1 h2 h3.
  assert (Hv : lazy_text v (NativeEvent e) scalar_value = v)
    by apply lazy_text_idem.
  assert (C1 : buffer_contents (snd h3) (fst h1) = to_bytes a)
    by apply points_to_contents, points_to_alloc, points_to_alloc, alloc_points_to.
  assert (C2 : buffer_contents (snd h3) (fst h2) = to_bytes t)
    by apply points_to_contents, points_to_alloc, alloc_points_to.
  assert (C3 : buffer_contents (snd h3) (fst h3) = to_bytes v)
    by apply points_to_contents, alloc_points_to.
  assert (R3 : release (fst h3) (snd h3) = snd h2) by apply release_alloc.
  assert (R2 : release (fst h2) (snd h2) = snd h1) by apply release_alloc.
  assert (R1 : release (fst h1) (snd h1) = heap m) by apply release_alloc.
  rewrite Hv. fold e' converted.
  clearbody h1 h2 h3 v. destruct v as [s|].
  - cbn [String_Length lazy_calls]. rewrite app_nil_r.
    unfold IsPlainImplicit_get, IsQuotedImplicit_get, get_this,
      yaml_scalar_event_initialize, mbind, M_bind, mret, M_ret.
    cbv beta iota zeta. cbn [this heap output calls fst snd].
    rewrite C1, C2, C3.
    step delete_if_not_NULL_run. step delete_if_not_NULL_run.
    step delete_if_not_NULL_run.
    rewrite R3, R2, R1.
    cbn [with_anchor with_tag with_value isPlainImplicit isQuotedImplicit e'].
    match goal with |- context [negb ?b] => destruct (negb b) end; reflexivity.
  - reflexivity.
Qed.

(** [ToString] in one equation: it raises exactly when [Length] does. *)
Lemma ToString_run (m : Machine) :
  let e := this m in
  let a := lazy_text (anchor e) (NativeEvent e) scalar_anchor in
  let t := lazy_text (tag e) (NativeEvent e) scalar_tag in
  let v := lazy_text (value e) (NativeEvent e) scalar_value in
  let e' := with_value v (with_tag t (with_anchor a e)) in
  ToString m =
    (match fst (Length_get m) with
     | Return n =>
         Return (String_Format "{0} {1} {2} {3} {4} {5} {6} {7}"
           [ Object_String (Some (System.literal "ScalarEvent"));
             Object_String a; Object_String t; Object_String v;
             Object_Int32 n;
             Object_String (Some (System.literal
               (if isPlainImplicit e then "plain_implicit" else "plain_explicit")));
             Object_String (Some (System.literal
               (if isPlainImplicit e then "quoted_implicit" else "quoted_explicit")));
             Object_ScalarStyle (style e) ])
     | Throw x => Throw x
     end,
     {| this := e'; heap := heap m; output := output m;
        calls := ((calls m
                   ++ lazy_calls (anchor e) (NativeEvent e) scalar_anchor)
                   ++ lazy_calls (tag e) (NativeEvent e) scalar_tag)
                   ++ lazy_calls (value e) (NativeEvent e) scalar_value |}).
Proof.
  intros e a t v e'.
  unfold ToString, mbind, M_bind.
  step Anchor_get_run. step Tag_get_run. step Value_get_run.
  step Length_get_run. rewrite Length_get_run. cbn [fst].
  cbn [with_anchor with_tag with_value NativeEvent anchor tag value].
  fold e a t v e'.
  assert (Hd : NativeEvent e = None -> v = value e).
  { intros H. unfold v. rewrite H. destruct (value e); reflexivity. }
  destruct (NativeEvent e) as [r|]; [reflexivity|].
  rewrite (Hd eq_refl). destruct (value e); reflexivity.
Qed.
End Composite_methods.

(** ** The claims about reading *)

Section Reading.
Context {converter : StringConverter}.

Lemma accessor_results (m : Machine) :
  let e := this m in
  fst (Anchor_get m) = Return (lazy_text (anchor e) (NativeEvent e) scalar_anchor) /\
  fst (Tag_get m) = Return (lazy_text (tag e) (NativeEvent e) scalar_tag) /\
  fst (Value_get m) = Return (lazy_text (value e) (NativeEvent e) scalar_value).
Proof.
  rewrite Anchor_get_run, Tag_get_run, Value_get_run. repeat split.
Qed.

(** Claim C2, as amended. For each of Anchor, Tag and Value: when the first
    read of the property gives a text that is present, any number of reads
    in succession call the bytes-to-text conversion once if the text was
    not cached yet and not at all if it was, and every read returns that
    text. When the conversion gives a null handle on a bound object,
    nothing is cached: each of the reads calls the conversion again and
    returns null. *)
Theorem lazy_decode_cached_once (m : Machine) (n : nat) :
  let before := to_text_calls (calls m) in
  (forall txt, fst (Anchor_get m) = Return (Some txt) ->
     fst (read_times (S n) Anchor_get m) = Return (replicate (S n) (Some txt)) /\
     to_text_calls (calls (snd (read_times (S n) Anchor_get m)))
       = (before + match anchor (this m) with Some _ => 0 | None => 1 end)%nat) /\
  (forall txt, fst (Tag_get m) = Return (Some txt) ->
     fst (read_times (S n) Tag_get m) = Return (replicate (S n) (Some txt)) /\
     to_text_calls (calls (snd (read_times (S n) Tag_get m)))
       = (before + match tag (this m) with Some _ => 0 | None => 1 end)%nat) /\
  (forall txt, fst (Value_get m) = Return (Some txt) ->
     fst (read_times (S n) Value_get m) = Return (replicate (S n) (Some txt)) /\
     to_text_calls (calls (snd (read_times (S n) Value_get m)))
       = (before + match value (this m) with Some _ => 0 | None => 1 end)%nat) /\
  (forall nativeEvent, NativeEvent (this m) = Some nativeEvent ->
     (fst (Anchor_get m) = Return None ->
      fst (read_times n Anchor_get m) = Return (replicate n None) /\
      to_text_calls (calls (snd (read_times n Anchor_get m))) = (before + n)%nat) /\
     (fst (Tag_get m) = Return None ->
      fst (read_times n Tag_get m) = Return (replicate n None) /\
      to_text_calls (calls (snd (read_times n Tag_get m))) = (before + n)%nat) /\
     (fst (Value_get m) = Return None ->
      fst (read_times n Value_get m) = Return (replicate n None) /\
      to_text_calls (calls (snd (read_times n Value_get m))) = (before + n)%nat)).
Proof.
  intros before. unfold before. clear before.
  repeat match goal with |- _ /\ _ => split end.
  - intros txt H. destruct (anchor (this m)) as [c|] eqn:Hc.
    + rewrite (Anchor_get_cached m c Hc) in H. injection H as ->.
      rewrite (read_Anchor_cached (S n) m txt Hc). split; [reflexivity | cbn; lia].
    + destruct (NativeEvent (this m)) as [r|] eqn:Hn.
      * rewrite (Anchor_get_decodes m r Hn Hc) in H. injection H as H.
        cbn [read_times]. unfold mbind, M_bind.
        rewrite (Anchor_get_decodes m r Hn Hc), H.
        rewrite read_Anchor_cached with (txt := txt) by reflexivity.
        cbn. rewrite to_text_calls_app. split; [reflexivity | cbn; lia].
      * rewrite (Anchor_get_detached m Hn), Hc in H. discriminate H.
  - intros txt H. destruct (tag (this m)) as [c|] eqn:Hc.
    + rewrite (Tag_get_cached m c Hc) in H. injection H as ->.
      rewrite (read_Tag_cached (S n) m txt Hc). split; [reflexivity | cbn; lia].
    + destruct (NativeEvent (this m)) as [r|] eqn:Hn.
      * rewrite (Tag_get_decodes m r Hn Hc) in H. injection H as H.
        cbn [read_times]. unfold mbind, M_bind.
        rewrite (Tag_get_decodes m r Hn Hc), H.
        rewrite read_Tag_cached with (txt := txt) by reflexivity.
        cbn. rewrite to_text_calls_app. split; [reflexivity | cbn; lia].
      * rewrite (Tag_get_detached m Hn), Hc in H. discriminate H.
  - intros txt H. destruct (value (this m)) as [c|] eqn:Hc.
    + rewrite (Value_get_cached m c Hc) in H. injection H as ->.
      rewrite (read_Value_cached (S n) m txt Hc). split; [reflexivity | cbn; lia].
    + destruct (NativeEvent (this m)) as [r|] eqn:Hn.
      * rewrite (Value_get_decodes m r Hn Hc) in H. injection H as H.
        cbn [read_times]. unfold mbind, M_bind.
        rewrite (Value_get_decodes m r Hn Hc), H.
        rewrite read_Value_cached with (txt := txt) by reflexivity.
        cbn. rewrite to_text_calls_app. split; [reflexivity | cbn; lia].
      * rewrite (Value_get_detached m Hn), Hc in H. discriminate H.
  - intros nativeEvent H0. split; [|split]; intros H.
    + destruct (anchor (this m)) as [c|] eqn:Hc.
      * rewrite (Anchor_get_cached m c Hc) in H. discriminate H.
      * rewrite (Anchor_get_decodes m nativeEvent H0 Hc) in H. injection H as H.
        apply (read_Anchor_absent n m nativeEvent H0 Hc H).
    + destruct (tag (this m)) as [c|] eqn:Hc.
      * rewrite (Tag_get_cached m c Hc) in H. discriminate H.
      * rewrite (Tag_get_decodes m nativeEvent H0 Hc) in H. injection H as H.
        apply (read_Tag_absent n m nativeEvent H0 Hc H).
    + destruct (value (this m)) as [c|] eqn:Hc.
      * rewrite (Value_get_cached m c Hc) in H. discriminate H.
      * rewrite (Value_get_decodes m nativeEvent H0 Hc) in H. injection H as H.
        apply (read_Value_absent n m nativeEvent H0 Hc H).
Qed.

(** Claim C3, as amended. On a bound object Length returns the length field
    of the raw record, converted to [int], on every access: the read depends
    on nothing but the record, stores nothing, and gives the same also after
    Value has been decoded and cached, whatever the number of characters of
    the decoded text; for a field that fits an [int], that is below 2^31,
    this is the field itself. On a detached object whose value is present
    Length returns the number of characters of the value. *)
Theorem Length_get_bound_and_detached (m : Machine) :
  (forall nativeEvent, NativeEvent (this m) = Some nativeEvent ->
     let n := int_of_size_t (scalar_length nativeEvent) in
     Length_get m = (Return n, m) /\
     fst ((Value_get ;; Length_get) m) = Return n /\
     fst ((Length_get ;; Length_get) m) = Return n /\
     (0 <= scalar_length nativeEvent < 2 ^ 31 -> n = scalar_length nativeEvent)) /\
  (forall v, NativeEvent (this m) = None -> value (this m) = Some v ->
     Length_get m = (Return (Z.of_nat (List.length v)), m)).
Proof.
  split.
  - intros r Hn n. repeat split.
    + rewrite Length_get_run, Hn. reflexivity.
    + unfold mbind, M_bind. rewrite Value_get_run, Length_get_run. cbn.
      rewrite Hn. reflexivity.
    + unfold mbind, M_bind. rewrite !Length_get_run, Hn. reflexivity.
    + intros H. apply int_of_size_t_fits. exact H.
  - intros v Hn Hv. rewrite Length_get_run, Hn, Hv. reflexivity.
Qed.

(** Claim C7, as amended. Anchor, Tag, Value, Style, IsPlainImplicit and
    IsQuotedImplicit return normally on every object, bound or detached;
    Length returns normally on every bound object and on every detached
    object whose value is present. Reading the anchor or the tag of a bound
    object whose record has none returns what the conversion gives for a
    null buffer, which is a null handle when the conversion maps null to
    null. *)
Theorem read_accessors_total (m : Machine) :
  (exists a, fst (Anchor_get m) = Return a) /\
  (exists t, fst (Tag_get m) = Return t) /\
  (exists v, fst (Value_get m) = Return v) /\
  fst (Style_get m) = Return (style (this m)) /\
  fst (IsPlainImplicit_get m) = Return (isPlainImplicit (this m)) /\
  fst (IsQuotedImplicit_get m) = Return (isQuotedImplicit (this m)) /\
  (NativeEvent (this m) <> None \/ value (this m) <> None ->
   exists n, fst (Length_get m) = Return n) /\
  (forall nativeEvent,
     NativeEvent (this m) = Some nativeEvent -> to_text None = None ->
     (anchor (this m) = None -> scalar_anchor nativeEvent = None ->
      fst (Anchor_get m) = Return None) /\
     (tag (this m) = None -> scalar_tag nativeEvent = None ->
      fst (Tag_get m) = Return None)).
Proof.
  destruct (accessor_results m) as (Ha & Ht & Hv).
  split; [eexists; exact Ha|]. split; [eexists; exact Ht|].
  split; [eexists; exact Hv|].
  split; [reflexivity|]. split; [reflexivity|]. split; [reflexivity|].
  split.
  - intros H. rewrite Length_get_run.
    destruct (NativeEvent (this m)) as [r|]; [eexists; reflexivity|].
    destruct (value (this m)) as [v|]; [eexists; reflexivity|].
    destruct H as [H|H]; contradiction H; reflexivity.
  - intros r Hn Hnull. split; intros Hc Hf.
    + rewrite (Anchor_get_decodes m r Hn Hc), Hf, Hnull. reflexivity.
    + rewrite (Tag_get_decodes m r Hn Hc), Hf, Hnull. reflexivity.
Qed.

(** Claim C10. Reading Anchor, Tag, Value, Length or ToString leaves the
    style and the two implicit flags of the object as they were. Anchor
    changes at most the anchor cache, which then holds the text it
    returned; likewise Tag and the tag cache, Value and the value cache;
    Length leaves the whole machine as it was; ToString changes at most the
    three caches. None of them changes the record pointer, the native heap
    or the output record. *)
Theorem reads_keep_flags (m : Machine) :
  (same_flags (this m) (this (snd (Anchor_get m))) /\
   same_flags (this m) (this (snd (Tag_get m))) /\
   same_flags (this m) (this (snd (Value_get m))) /\
   same_flags (this m) (this (snd (Length_get m))) /\
   same_flags (this m) (this (snd (ToString m)))) /\
  (exists a, fst (Anchor_get m) = Return a /\
             this (snd (Anchor_get m)) = with_anchor a (this m)) /\
  (exists t, fst (Tag_get m) = Return t /\
             this (snd (Tag_get m)) = with_tag t (this m)) /\
  (exists v, fst (Value_get m) = Return v /\
             this (snd (Value_get m)) = with_value v (this m)) /\
  snd (Length_get m) = m /\
  (exists a t v,
     this (snd (ToString m)) = with_value v (with_tag t (with_anchor a (this m)))) /\
  (heap (snd (Anchor_get m)) = heap m /\ output (snd (Anchor_get m)) = output m) /\
  (heap (snd (Tag_get m)) = heap m /\ output (snd (Tag_get m)) = output m) /\
  (heap (snd (Value_get m)) = heap m /\ output (snd (Value_get m)) = output m) /\
  (heap (snd (ToString m)) = heap m /\ output (snd (ToString m)) = output m).
Proof.
  rewrite Anchor_get_run, Tag_get_run, Value_get_run, Length_get_run, ToString_run.
  cbn [fst snd this heap output].
  repeat match goal with |- _ /\ _ => split end;
    try reflexivity; repeat eexists.
Qed.
End Reading.

(** ** The claims about rendering and writing *)

Lemma initialize_calls_lazy (cache : option System.String)
    (native : option yaml_event_t) (field : yaml_event_t -> yaml_chars) :
  initialize_calls (lazy_calls cache native field) = [].
Proof. destruct cache, native; reflexivity. Qed.

Lemma initialize_calls_delete (p : option positive) :
  initialize_calls (delete_calls p) = [].
Proof. destruct p; reflexivity. Qed.

Section Writing.
Context {converter : StringConverter} {emitter : Emitter}.

(** Claim C8, as amended. Whenever Length returns, ToString returns the
    type name, the anchor, the tag, the value (a null handle shown as
    nothing), the length in decimal, "plain_implicit" or "plain_explicit"
    chosen by isPlainImplicit, "quoted_implicit" or "quoted_explicit"
    chosen by the same isPlainImplicit, and the name of the style, with one
    space between neighbours. The string is a function of these alone: it
    is the same whatever isQuotedImplicit holds. *)
Theorem ToString_rendering (m : Machine) (a t v : option System.String) (n : Z) :
  fst (Anchor_get m) = Return a ->
  fst (Tag_get m) = Return t ->
  fst (Value_get m) = Return v ->
  fst (Length_get m) = Return n ->
  let sp := System.literal " " in
  let p := isPlainImplicit (this m) in
  fst (ToString m) =
    Return (System.literal "ScalarEvent" ++ sp ++
            default [] a ++ sp ++ default [] t ++ sp ++ default [] v ++ sp ++
            System.Int32_ToString n ++ sp ++
            System.literal (if p then "plain_implicit" else "plain_explicit") ++ sp ++
            System.literal (if p then "quoted_implicit" else "quoted_explicit") ++ sp ++
            ScalarStyle.ToString (style (this m))) /\
  forall q, fst (ToString (on (with_isQuotedImplicit q (this m)) m)) = fst (ToString m).
Proof.
  destruct (accessor_results m) as (Ha' & Ht' & Hv').
  intros Ha Ht Hv Hn sp p.
  rewrite Ha' in Ha. rewrite Ht' in Ht. rewrite Hv' in Hv.
  injection Ha as Ha. injection Ht as Ht. injection Hv as Hv.
  split.
  - rewrite ToString_run. cbn [fst]. rewrite Hn, Ha, Ht, Hv.
    rewrite <- (app_nil_r (ScalarStyle.ToString (style (this m)))).
    destruct a, t, v; reflexivity.
  - intros q. rewrite !ToString_run. cbn [fst]. rewrite !Length_get_run.
    reflexivity.
Qed.

(** Claim C1, as amended. Whenever the Value property gives a text that is
    present, CreateEvent calls the initialize primitive exactly once, with
    the buffers that encode what Anchor, Tag and Value return, the number of
    characters of the value, 1 or 0 for IsPlainImplicit and for
    IsQuotedImplicit, and YAML_ANY_SCALAR_STYLE; the call is the same
    whatever the Style field holds. *)
Theorem CreateEvent_initialize_arguments
    (m : Machine) (a t : option System.String) (v : System.String) :
  fst (Anchor_get m) = Return a ->
  fst (Tag_get m) = Return t ->
  fst (Value_get m) = Return (Some v) ->
  let call :=
    Call_scalar_event_initialize
      (to_bytes a) (to_bytes t) (to_bytes (Some v))
      (Z.of_nat (List.length v))
      (if isPlainImplicit (this m) then 1 else 0)
      (if isQuotedImplicit (this m) then 1 else 0)
      YAML_ANY_SCALAR_STYLE in
  initialize_calls (calls (snd (CreateEvent m)))
    = initialize_calls (calls m) ++ [call] /\
  forall s,
    initialize_calls (calls (snd (CreateEvent (on (with_style s (this m)) m))))
      = initialize_calls (calls m) ++ [call].
Proof.
  destruct (accessor_results m) as (Ha' & Ht' & Hv').
  intros Ha Ht Hv call.
  rewrite Ha' in Ha. rewrite Ht' in Ht. rewrite Hv' in Hv.
  injection Ha as Ha. injection Ht as Ht. injection Hv as Hv.
  assert (G : forall s,
    initialize_calls (calls (snd (CreateEvent (on (with_style s (this m)) m))))
      = initialize_calls (calls m) ++ [call]).
  { intros s. rewrite CreateEvent_run.
    cbn [on with_style this heap output calls NativeEvent anchor tag value
         isPlainImplicit isQuotedImplicit].
    rewrite Ha, Ht, Hv. cbn [snd calls].
    rewrite !initialize_calls_app, !initialize_calls_lazy, !initialize_calls_delete.
    cbn [initialize_calls]. rewrite !app_nil_r. reflexivity. }
  split; [|exact G].
  specialize (G (style (this m))).
  replace (on (with_style (style (this m)) (this m)) m) with m in G; [exact G|].
  destruct m as [[ne an tg vl st pi qi] h o c]; reflexivity.
Qed.

(** Claim C4, as amended. Whenever CreateEvent reaches the initialize
    primitive, that is whenever Value gives a text that is present, all
    three buffers are released whether the primitive succeeds or fails: the
    native heap is again what it was before the call. CreateEvent then
    returns normally if the primitive returned 1 and raises YamlException
    otherwise, and in both cases the output record is exactly what the
    primitive left: CreateEvent writes nothing to it, so after a failure of
    a primitive that leaves the record alone when it fails the record is
    what it was before the call. *)
Theorem CreateEvent_releases_buffers
    (m : Machine) (a t : option System.String) (v : System.String) :
  fst (Anchor_get m) = Return a ->
  fst (Tag_get m) = Return t ->
  fst (Value_get m) = Return (Some v) ->
  let r :=
    scalar_event_initialize (output m)
      (to_bytes a) (to_bytes t) (to_bytes (Some v))
      (Z.of_nat (List.length v))
      (if isPlainImplicit (this m) then 1 else 0)
      (if isQuotedImplicit (this m) then 1 else 0)
      YAML_ANY_SCALAR_STYLE in
  heap (snd (CreateEvent m)) = heap m /\
  (fst (CreateEvent m) = Throw YamlException <-> fst r <> 1) /\
  (fst (CreateEvent m) = Return tt <-> fst r = 1) /\
  output (snd (CreateEvent m)) = snd r /\
  (fst r <> 1 -> snd r = output m -> output (snd (CreateEvent m)) = output m).
Proof.
  destruct (accessor_results m) as (Ha' & Ht' & Hv').
  intros Ha Ht Hv r.
  rewrite Ha' in Ha. rewrite Ht' in Ht. rewrite Hv' in Hv.
  injection Ha as Ha. injection Ht as Ht. injection Hv as Hv.
  rewrite CreateEvent_run, Ha, Ht, Hv. cbn [fst snd heap output]. fold r.
  split; [reflexivity|].
  destruct (Z.eqb_spec (fst r) 1) as [E|E]; cbn [negb].
  - repeat split; try (intros H; try reflexivity; try discriminate H; try exact E).
    + contradiction H.
    + intros H'. exact H'.
  - repeat split; try (intros H; try reflexivity; try discriminate H; try exact E).
    + contradiction E.
    + intros H'. exact H'.
Qed.

(** Claim C9. On a detached object Length and CreateEvent dereference the
    stored value without a guard: each of them raises a null-reference
    exception exactly when the value given to the constructor is null.
    When the value is present Length returns its number of characters,
    CreateEvent reaches the primitive, and both leave the value and the
    absence of a record as they were, so the same holds at every later
    call. *)
Theorem detached_value_dereference (m : Machine) :
  NativeEvent (this m) = None ->
  (fst (Length_get m) = Throw NullReferenceException <-> value (this m) = None) /\
  (fst (CreateEvent m) = Throw NullReferenceException <-> value (this m) = None) /\
  (forall v, value (this m) = Some v ->
     fst (Length_get m) = Return (Z.of_nat (List.length v)) /\
     snd (Length_get m) = m /\
     (exists call, initialize_calls (calls (snd (CreateEvent m)))
                   = initialize_calls (calls m) ++ [call]) /\
     value (this (snd (CreateEvent m))) = Some v /\
     NativeEvent (this (snd (CreateEvent m))) = None).
Proof.
  intros Hn.
  assert (Hv : lazy_text (value (this m)) (NativeEvent (this m)) scalar_value
               = value (this m)).
  { rewrite Hn. destruct (value (this m)); reflexivity. }
  rewrite CreateEvent_run, Length_get_run, Hv, Hn.
  destruct (value (this m)) as [v|].
  - split; [split; intros H; discriminate H|].
    split.
    + split; [|intros H; discriminate H]. cbn [fst].
      match goal with |- context [negb ?b] => destruct (negb b) end;
        intros H; discriminate H.
    + intros v' [= <-]. cbn [fst snd this calls with_value value NativeEvent
                             with_tag with_anchor].
      repeat split; [|exact Hn].
      eexists.
      rewrite !initialize_calls_app, !initialize_calls_lazy, !initialize_calls_delete.
      cbn [initialize_calls]. rewrite !app_nil_r. reflexivity.
  - split; [split; reflexivity|]. split; [split; reflexivity|].
    intros v' H. discriminate H.
Qed.
End Writing.

(** ** Further properties of the class *)

Lemma delete_count_app (l1 l2 : list Call) :
  delete_count (l1 ++ l2) = (delete_count l1 + delete_count l2)%nat.
Proof.
  induction l1 as [|c l1 IH]; [reflexivity|]. cbn. rewrite IH. lia.
Qed.

Lemma delete_count_lazy (cache : option System.String)
    (native : option yaml_event_t) (field : yaml_event_t -> yaml_chars) :
  delete_count (lazy_calls cache native field) = 0%nat.
Proof. destruct cache, native; reflexivity. Qed.

Lemma to_text_calls_delete (p : option positive) :
  to_text_calls (delete_calls p) = 0%nat.
Proof. destruct p; reflexivity. Qed.

Lemma alloc_allocated (contents : yaml_chars) (h : gmap positive (list byte)) :
  size (snd (alloc contents h)) = (size h + allocated contents)%nat /\
  delete_count (delete_calls (fst (alloc contents h))) = allocated contents /\
  Forall (fun c => is_delete c = true) (delete_calls (fst (alloc contents h))).
Proof.
  destruct contents as [bs|]; cbn.
  - rewrite map_size_insert_None by apply not_elem_of_dom, is_fresh.
    repeat split; [lia | repeat constructor].
  - repeat split; [lia | constructor].
Qed.

Lemma alloc_keeps (contents : yaml_chars) (h : gmap positive (list byte))
    (p : positive) (bs : list byte) :
  h !! p = Some bs -> snd (alloc contents h) !! p = Some bs.
Proof.
  intros H. apply (points_to_alloc h (Some p) (Some bs) contents). exact H.
Qed.






Section More_properties.
Context {converter : StringConverter} {emitter : Emitter}.

(** What the three lazy properties return depends on the caches only through
    [lazy_text]; so does every read. *)
Lemma same_reads_intro (m m' : Machine) :
  NativeEvent (this m') = NativeEvent (this m) ->
  same_flags (this m) (this m') ->
  lazy_text (anchor (this m')) (NativeEvent (this m)) scalar_anchor
    = lazy_text (anchor (this m)) (NativeEvent (this m)) scalar_anchor ->
  lazy_text (tag (this m')) (NativeEvent (this m)) scalar_tag
    = lazy_text (tag (this m)) (NativeEvent (this m)) scalar_tag ->
  lazy_text (value (this m')) (NativeEvent (this m)) scalar_value
    = lazy_text (value (this m)) (NativeEvent (this m)) scalar_value ->
  same_reads m m'.
Proof.
  intros Hn (Hs & Hp & Hq) Ha Ht Hv.
  assert (HL : fst (Length_get m') = fst (Length_get m)).
  { rewrite !Length_get_run, Hn. cbn [fst].
    destruct (NativeEvent (this m)) as [r|]; [reflexivity|].
    destruct (value (this m')), (value (this m)); cbn in Hv;
      try discriminate Hv; try reflexivity.
    injection Hv as ->. reflexivity. }
  unfold same_reads.
  rewrite !Anchor_get_run, !Tag_get_run, !Value_get_run, !ToString_run.
  cbn [fst]. rewrite HL, Hn, Ha, Ht, Hv.
  unfold IsPlainImplicit_get, IsQuotedImplicit_get, Style_get, get_this,
    mbind, M_bind, mret, M_ret. cbn [fst].
  rewrite Hs, Hp, Hq. repeat split.
Qed.

(** Caching is not observable: after Anchor, Tag, Value, ToString or
    CreateEvent has run, whatever its outcome, every property and ToString
    return what they would have returned before it. *)
Theorem caching_is_transparent (m : Machine) :
  same_reads m (snd (Anchor_get m)) /\
  same_reads m (snd (Tag_get m)) /\
  same_reads m (snd (Value_get m)) /\
  same_reads m (snd (ToString m)) /\
  same_reads m (snd (CreateEvent m)).
Proof.
  rewrite Anchor_get_run, Tag_get_run, Value_get_run, ToString_run, CreateEvent_run.
  cbn [snd].
  assert (G : forall m', 
    this m' = with_value (lazy_text (value (this m)) (NativeEvent (this m)) scalar_value)
               (with_tag (lazy_text (tag (this m)) (NativeEvent (this m)) scalar_tag)
                 (with_anchor (lazy_text (anchor (this m)) (NativeEvent (this m)) scalar_anchor)
                   (this m))) ->
    same_reads m m').
  { intros m' E. apply same_reads_intro; rewrite E; cbn;
      try reflexivity; try apply lazy_text_idem. repeat split. }
  repeat match goal with |- _ /\ _ => split end.
  - apply same_reads_intro; cbn; try reflexivity; try apply lazy_text_idem.
    repeat split.
  - apply same_reads_intro; cbn; try reflexivity; try apply lazy_text_idem.
    repeat split.
  - apply same_reads_intro; cbn; try reflexivity; try apply lazy_text_idem.
    repeat split.
  - apply G. reflexivity.
  - apply G.
    destruct (lazy_text (value (this m)) (NativeEvent (this m)) scalar_value);
      reflexivity.
Qed.

(** CreateEvent, on each of its three exits, leaves the record pointer, the
    style and the two flags alone; what it changes in the object is the three
    caches, which afterwards hold what Anchor, Tag and Value returned. *)
Theorem CreateEvent_changes_only_caches (m : Machine) :
  let m' := snd (CreateEvent m) in
  NativeEvent (this m') = NativeEvent (this m) /\
  same_flags (this m) (this m') /\
  exists a t v,
    fst (Anchor_get m) = Return a /\ fst (Tag_get m) = Return t /\
    fst (Value_get m) = Return v /\
    this m' = with_value v (with_tag t (with_anchor a (this m))).
Proof.
  destruct (accessor_results m) as (Ha & Ht & Hv).
  cbv zeta. rewrite CreateEvent_run.
  split; [|split].
  - destruct (lazy_text (value (this m)) (NativeEvent (this m)) scalar_value);
      reflexivity.
  - destruct (lazy_text (value (this m)) (NativeEvent (this m)) scalar_value);
      repeat split.
  - eexists _, _, _. split; [exact Ha|]. split; [exact Ht|]. split; [exact Hv|].
    destruct (lazy_text (value (this m)) (NativeEvent (this m)) scalar_value);
      reflexivity.
Qed.

(** The exit through Value->Length. When Value reads null, CreateEvent raises
    the null-reference exception having called neither the primitive nor
    [delete[]] and without touching the output record; every block that was
    live stays live with its contents, and every buffer the three
    conversions allocated stays live as well. *)
Theorem CreateEvent_null_value_path (m : Machine) (a t : option System.String) :
  fst (Anchor_get m) = Return a ->
  fst (Tag_get m) = Return t ->
  fst (Value_get m) = Return None ->
  let m' := snd (CreateEvent m) in
  fst (CreateEvent m) = Throw NullReferenceException /\
  initialize_calls (calls m') = initialize_calls (calls m) /\
  delete_count (calls m') = delete_count (calls m) /\
  output m' = output m /\
  size (heap m')
    = (size (heap m) + allocated (to_bytes a) + allocated (to_bytes t)
       + allocated (to_bytes None))%nat /\
  (forall p bs, heap m !! p = Some bs -> heap m' !! p = Some bs).
Proof.
  destruct (accessor_results m) as (Ha' & Ht' & Hv').
  intros Ha Ht Hv.
  rewrite Ha' in Ha. rewrite Ht' in Ht. rewrite Hv' in Hv.
  injection Ha as Ha. injection Ht as Ht. injection Hv as Hv.
  cbv zeta. rewrite CreateEvent_run, Ha, Ht, Hv. cbn [fst snd calls output heap].
  split; [reflexivity|].
  split.
  { rewrite !initialize_calls_app, !initialize_calls_lazy. cbn [initialize_calls].
    rewrite !app_nil_r. reflexivity. }
  split.
  { rewrite !delete_count_app, !delete_count_lazy. cbn. lia. }
  split; [reflexivity|].
  split.
  { repeat match goal with |- context [size (snd (alloc ?c ?h))] =>
      rewrite (proj1 (alloc_allocated c h)) end. reflexivity. }
  intros p bs H. repeat apply alloc_keeps. exact H.
Qed.


(** On a bound object CreateEvent decodes each text that is not cached yet
    once, although it reads Value twice; when the value decodes to null,
    which is cached by nothing, it is decoded twice before the exception. *)
Theorem CreateEvent_decodes_uncached_once (m : Machine) (r : yaml_event_t) :
  NativeEvent (this m) = Some r ->
  let uncached (c : option System.String) : nat :=
    match c with Some _ => 0%nat | None => 1%nat end in
  (forall v, fst (Value_get m) = Return (Some v) ->
     to_text_calls (calls (snd (CreateEvent m)))
       = (to_text_calls (calls m) + uncached (anchor (this m))
          + uncached (tag (this m)) + uncached (value (this m)))%nat) /\
  (fst (Value_get m) = Return None ->
     to_text_calls (calls (snd (CreateEvent m)))
       = (to_text_calls (calls m) + uncached (anchor (this m))
          + uncached (tag (this m)) + 2)%nat).
Proof.
  intros Hn uncached.
  assert (L : forall c f, to_text_calls (lazy_calls c (Some r) f) = uncached c)
    by (intros [?|] ?; reflexivity).
  destruct (accessor_results m) as (_ & _ & Hv').
  split.
  - intros v Hv. rewrite Hv' in Hv. injection Hv as Hv.
    rewrite CreateEvent_run, Hv. cbn [snd calls]. rewrite Hn.
    rewrite !to_text_calls_app, !L, !to_text_calls_delete. cbn. lia.
  - intros Hv. rewrite Hv' in Hv. injection Hv as Hv.
    assert (Hc : value (this m) = None).
    { destruct (value (this m)); [|reflexivity]. rewrite Hn in Hv. discriminate Hv. }
    rewrite CreateEvent_run, Hv. cbn [snd calls]. rewrite Hn, Hc.
    rewrite !to_text_calls_app, !L. cbn. lia.
Qed.

(** CreateEvent can be run again on the same object: the second run hands
    the primitive the arguments of the first, leaves the object as the first
    left it, and the heap is again what it was before the first. *)
Theorem CreateEvent_repeatable
    (m : Machine) (a t : option System.String) (v : System.String) :
  fst (Anchor_get m) = Return a ->
  fst (Tag_get m) = Return t ->
  fst (Value_get m) = Return (Some v) ->
  let m1 := snd (CreateEvent m) in
  let m2 := snd (CreateEvent m1) in
  let call :=
    Call_scalar_event_initialize
      (to_bytes a) (to_bytes t) (to_bytes (Some v))
      (Z.of_nat (List.length v))
      (if isPlainImplicit (this m) then 1 else 0)
      (if isQuotedImplicit (this m) then 1 else 0)
      YAML_ANY_SCALAR_STYLE in
  initialize_calls (calls m2) = initialize_calls (calls m) ++ [call; call] /\
  this m2 = this m1 /\
  heap m2 = heap m.
Proof.
  destruct (accessor_results m) as (Ha' & Ht' & Hv').
  intros Ha Ht Hv.
  rewrite Ha' in Ha. rewrite Ht' in Ht. rewrite Hv' in Hv.
  injection Ha as Ha. injection Ht as Ht. injection Hv as Hv.
  subst a t. cbv zeta.
  rewrite (CreateEvent_run m), Hv. cbn [snd].
  rewrite CreateEvent_run.
  cbn [this heap output calls with_anchor with_tag with_value NativeEvent
       anchor tag value isPlainImplicit isQuotedImplicit].
  rewrite !lazy_text_idem.
  assert (Hv2 : lazy_text (Some v) (NativeEvent (this m)) scalar_value = Some v)
    by reflexivity.
  rewrite Hv2. cbn [snd this heap calls].
  split; [|split; reflexivity].
  rewrite !initialize_calls_app, !initialize_calls_lazy, !initialize_calls_delete.
  cbn [initialize_calls]. rewrite !app_nil_r, <- app_assoc. reflexivity.
Qed.

(** On every object, bound or detached, CreateEvent raises the null-reference
    exception exactly when Value reads null, and exactly then the primitive
    is not called; otherwise the primitive is called once. *)
Theorem CreateEvent_null_reference_iff (m : Machine) :
  (fst (CreateEvent m) = Throw NullReferenceException
   <-> fst (Value_get m) = Return None) /\
  (fst (CreateEvent m) = Throw NullReferenceException
   <-> initialize_calls (calls (snd (CreateEvent m))) = initialize_calls (calls m)) /\
  (fst (CreateEvent m) <> Throw NullReferenceException
   <-> exists call, initialize_calls (calls (snd (CreateEvent m)))
                    = initialize_calls (calls m) ++ [call]).
Proof.
  destruct (accessor_results m) as (_ & _ & Hv).
  rewrite Hv, CreateEvent_run. cbv zeta.
  assert (N : forall (l : list Call) c, l ++ [c] <> l).
  { intros l c E. apply (f_equal (@List.length Call)) in E.
    rewrite length_app in E. cbn in E. lia. }
  destruct (lazy_text (value (this m)) (NativeEvent (this m)) scalar_value) as [v|];
    cbn [fst snd calls];
    rewrite !initialize_calls_app, !initialize_calls_lazy, ?initialize_calls_delete;
    cbn [initialize_calls]; rewrite !app_nil_r.
  - assert (R : forall b : bool,
              (if b then Throw YamlException else Return tt)
              <> (Throw NullReferenceException : Outcome unit))
      by (intros [|]; discriminate).
    repeat split; intros H; try discriminate H.
    + exfalso. exact (R _ H).
    + exfalso. exact (R _ H).
    + exfalso. exact (N _ _ H).
    + eexists. reflexivity.
    + apply R.
  - repeat split; intros H; try reflexivity.
    + exfalso. apply H. reflexivity.
    + destruct H as [c H]. exfalso. symmetry in H. exact (N _ _ H).
Qed.

(** ToString raises only on a detached object whose value is null; the
    exception is the null-reference exception of Length, and the machine is
    then as it was. On a bound object it always returns. *)
Theorem ToString_raises_iff (m : Machine) :
  ((exists x, fst (ToString m) = Throw x)
   <-> NativeEvent (this m) = None /\ value (this m) = None) /\
  (forall x, fst (ToString m) = Throw x ->
     x = NullReferenceException /\ snd (ToString m) = m).
Proof.
  rewrite ToString_run, Length_get_run. cbn [fst snd].
  destruct m as [[ne a t v s p q] h o c]. cbn [this NativeEvent value].
  destruct ne as [r|].
  - split.
    + split; [intros [x H]; discriminate H | intros [H _]; discriminate H].
    + intros x H. discriminate H.
  - destruct v as [v|].
    + split.
      * split; [intros [x H]; discriminate H | intros [_ H]; discriminate H].
      * intros x H. discriminate H.
    + split.
      * split; [intros _; split; reflexivity | intros _; eexists; reflexivity].
      * intros x [= <-]. split; [reflexivity|].
        destruct a, t; cbn; rewrite ?app_nil_r; reflexivity.
Qed.

(** A detached object is never written to and never decoded: Anchor, Tag,
    Value and ToString leave the whole machine as it was, and CreateEvent,
    on each of its exits, leaves the object as it was and calls the
    bytes-to-text conversion not once. *)
Theorem detached_never_changes (m : Machine) :
  NativeEvent (this m) = None ->
  snd (Anchor_get m) = m /\
  snd (Tag_get m) = m /\
  snd (Value_get m) = m /\
  snd (ToString m) = m /\
  this (snd (CreateEvent m)) = this m /\
  to_text_calls (calls (snd (CreateEvent m))) = to_text_calls (calls m).
Proof.
  intros Hn.
  rewrite Anchor_get_run, Tag_get_run, Value_get_run, ToString_run, CreateEvent_run.
  cbv zeta. destruct m as [[ne a t v s p q] h o c]. cbn in Hn. subst ne.
  cbn [this NativeEvent anchor tag value heap output calls snd].
  assert (L : forall x f, lazy_text x None f = x) by (intros [?|] ?; reflexivity).
  assert (K : forall x f, lazy_calls x None f = []) by (intros [?|] ?; reflexivity).
  rewrite !L, !K, !app_nil_r.
  repeat split.
  - destruct v; reflexivity.
  - destruct v; cbn [snd calls];
      rewrite !to_text_calls_app, ?to_text_calls_delete; cbn; lia.
Qed.

(** A text that has been read is kept: if the record behind the pointer is
    then overwritten, Value still returns the text read before, without
    decoding, while Length follows the new record (its length field,
    converted to [int]), and a property that had not been read before is
    decoded from the new record. *)
Theorem cached_text_outlives_record
    (m : Machine) (v : System.String) (r' : yaml_event_t) :
  fst (Value_get m) = Return (Some v) ->
  let m1 := snd (Value_get m) in
  let m2 := on (with_NativeEvent (Some r') (this m1)) m1 in
  Value_get m2 = (Return (Some v), m2) /\
  fst (Length_get m2) = Return (int_of_size_t (scalar_length r')) /\
  (anchor (this m) = None ->
   fst (Anchor_get m2) = Return (to_text (scalar_anchor r'))) /\
  (tag (this m) = None ->
   fst (Tag_get m2) = Return (to_text (scalar_tag r'))).
Proof.
  destruct (accessor_results m) as (_ & _ & Hv').
  intros Hv. rewrite Hv' in Hv. injection Hv as Hv.
  cbv zeta. rewrite (Value_get_run m), Hv. cbn [snd].
  split; [apply Value_get_cached; reflexivity|].
  split; [rewrite Length_get_run; reflexivity|].
  split; intros Hc.
  - rewrite Anchor_get_run. cbn. rewrite Hc. reflexivity.
  - rewrite Tag_get_run. cbn. rewrite Hc. reflexivity.
Qed.

(** Writing back an event that was just read from a record: the primitive
    receives the re-encoding of the decoded anchor, tag and value, the number
    of characters of the decoded value (whatever the length field of the
    record, which, converted to [int], is what Length returns), 1 for an
    implicit flag of the record that is not 0 and 0 otherwise, and
    YAML_ANY_SCALAR_STYLE whatever the style of the record; each of the
    three texts is decoded once. *)
Theorem CreateEvent_of_parsed_record
    (r : yaml_event_t) (m0 : Machine) (v : System.String) :
  to_text (scalar_value r) = Some v ->
  let m := on (ScalarEvent_ctor_native r) m0 in
  initialize_calls (calls (snd (CreateEvent m)))
    = initialize_calls (calls m0) ++
      [Call_scalar_event_initialize
         (to_bytes (to_text (scalar_anchor r)))
         (to_bytes (to_text (scalar_tag r)))
         (to_bytes (Some v))
         (Z.of_nat (List.length v))
         (if scalar_plain_implicit r =? 0 then 0 else 1)
         (if scalar_quoted_implicit r =? 0 then 0 else 1)
         YAML_ANY_SCALAR_STYLE] /\
  fst (Length_get m) = Return (int_of_size_t (scalar_length r)) /\
  to_text_calls (calls (snd (CreateEvent m))) = (to_text_calls (calls m0) + 3)%nat.
Proof.
  intros Hv. cbv zeta. rewrite CreateEvent_run, Length_get_run.
  cbn [on ScalarEvent_ctor_native this heap output calls NativeEvent anchor tag
       value isPlainImplicit isQuotedImplicit lazy_text lazy_calls fst].
  rewrite Hv. cbn [snd calls].
  split; [|split; [reflexivity|]].
  - rewrite !initialize_calls_app, !initialize_calls_delete.
    cbn [initialize_calls]. rewrite !app_nil_r.
    destruct (scalar_plain_implicit r =? 0), (scalar_quoted_implicit r =? 0);
      reflexivity.
  - rewrite !to_text_calls_app, !to_text_calls_delete. cbn. lia.
Qed.
End More_properties.

(** ** Concrete runs

    The runs below use the UTF-8 converter and the two sample primitives. *)

#[local] Existing Instance Sample.utf8.

(** The round-trip scenario of the specification: the record "hello" is read
    through the properties and written back with a primitive that succeeds. *)
Example round_trip_hello :
  let m := Sample.start (ScalarEvent_ctor_native Sample.hello) in
  fst (Value_get m) = Return (Some (System.literal "hello")) /\
  fst (Length_get m) = Return 5 /\
  fst (IsPlainImplicit_get m) = Return true /\
  fst (IsQuotedImplicit_get m) = Return false /\
  fst (Style_get m) = Return ScalarStyle.Plain /\
  fst (CreateEvent (emitter := Sample.succeeding) m) = Return tt /\
  to_text (scalar_value (output (snd (CreateEvent (emitter := Sample.succeeding) m))))
    = Some (System.literal "hello").
Proof. vm_compute. repeat split. Qed.

(** A length field of 2^31 does not fit the [int] the property returns. *)
Example Length_past_int :
  fst (Length_get (Sample.start (ScalarEvent_ctor_native
         {| scalar_anchor := None; scalar_tag := None;
            scalar_value := Some (Sample.bytes "x");
            scalar_length := 2147483648;
            scalar_plain_implicit := 1; scalar_quoted_implicit := 1;
            scalar_style := YAML_PLAIN_SCALAR_STYLE |})))
  = Return (-2147483648).
Proof. reflexivity. Qed.

Example ToString_hello :
  fst (ToString (Sample.start (ScalarEvent_ctor_native Sample.hello)))
  = Return (System.literal
      "ScalarEvent  !!str hello 5 plain_implicit quoted_implicit Plain").
Proof. vm_compute. reflexivity. Qed.

(** The quoted label follows isPlainImplicit: with isPlainImplicit false and
    isQuotedImplicit true the rendering says quoted_explicit. *)
Example ToString_full_constructor :
  fst (ToString (Sample.start
        (ScalarEvent_ctor6 (Some (System.literal "x")) (Some (System.literal "!!str"))
           (Some (System.literal "a1")) ScalarStyle.DoubleQuoted false true)))
  = Return (System.literal
      "ScalarEvent a1 !!str x 1 plain_explicit quoted_explicit DoubleQuoted").
Proof. vm_compute. reflexivity. Qed.

(** A primitive that fails: the exception is raised and nothing stays
    allocated. *)
Example CreateEvent_failing :
  let m := Sample.start
        (ScalarEvent_ctor3 (Some (System.literal "x")) (Some (System.literal "!!str"))
           (Some (System.literal "a1"))) in
  fst (CreateEvent (emitter := Sample.failing) m) = Throw YamlException /\
  heap (snd (CreateEvent (emitter := Sample.failing) m)) = ∅ /\
  output (snd (CreateEvent (emitter := Sample.failing) m)) = Sample.blank.
Proof. vm_compute. repeat split. Qed.

(** *** Claim C1 *)

(** Counterexample to claim C1 as stated: on a detached event whose value is
    null, CreateEvent raises at Value->Length and the primitive is never
    called. *)
Lemma CreateEvent_null_value_never_initializes :
  let m := Sample.start (ScalarEvent_ctor1 None) in
  fst (CreateEvent (emitter := Sample.succeeding) m) = Throw NullReferenceException /\
  initialize_calls (calls (snd (CreateEvent (emitter := Sample.succeeding) m))) = [].
Proof. vm_compute. split; reflexivity. Qed.

Lemma CreateEvent_initialize_arguments_witness :
  let m := Sample.start
        (ScalarEvent_ctor6 (Some (System.literal "x")) (Some (System.literal "!!str"))
           (Some (System.literal "a1")) ScalarStyle.DoubleQuoted false true) in
  fst (Value_get m) = Return (Some (System.literal "x")) /\
  initialize_calls (calls (snd (CreateEvent (emitter := Sample.succeeding) m)))
  = [Call_scalar_event_initialize
       (Some (Sample.bytes "a1")) (Some (Sample.bytes "!!str")) (Some (Sample.bytes "x"))
       1 0 1 YAML_ANY_SCALAR_STYLE].
Proof.
  intros m. split; [reflexivity|].
  destruct (CreateEvent_initialize_arguments (emitter := Sample.succeeding) m
              (Some (System.literal "a1")) (Some (System.literal "!!str"))
              (System.literal "x") eq_refl eq_refl eq_refl) as [H _].
  exact H.
Defined.

(** *** Claim C2 *)

(** Counterexample to claim C2 as stated: the record "hello" has no anchor,
    the conversion of the null buffer is a null handle, nothing is cached, and
    two reads of Anchor in succession call the conversion twice. *)
Lemma Anchor_absent_converted_twice :
  let m := Sample.start (ScalarEvent_ctor_native Sample.hello) in
  fst (read_times 2 Anchor_get m) = Return [None; None] /\
  to_text_calls (calls (snd (read_times 2 Anchor_get m))) = 2%nat /\
  to_text_calls (calls (snd (read_times 2 Anchor_get m))) <> 1%nat.
Proof. vm_compute. repeat split. discriminate. Qed.

Lemma lazy_decode_cached_once_witness :
  (let m := Sample.start (ScalarEvent_ctor_native Sample.anchored) in
   (fst (Anchor_get m) = Return (Some (System.literal "a1")) /\
    fst (read_times 2 Anchor_get m)
      = Return [Some (System.literal "a1"); Some (System.literal "a1")] /\
    to_text_calls (calls (snd (read_times 2 Anchor_get m))) = 1%nat) /\
   (fst (Tag_get m) = Return (Some (System.literal "!!str")) /\
    fst (read_times 2 Tag_get m)
      = Return [Some (System.literal "!!str"); Some (System.literal "!!str")] /\
    to_text_calls (calls (snd (read_times 2 Tag_get m))) = 1%nat) /\
   (fst (Value_get m) = Return (Some (System.literal "x")) /\
    fst (read_times 2 Value_get m)
      = Return [Some (System.literal "x"); Some (System.literal "x")] /\
    to_text_calls (calls (snd (read_times 2 Value_get m))) = 1%nat)) /\
  (let m := Sample.start (ScalarEvent_ctor_native Sample.hell) in
   NativeEvent (this m) = Some Sample.hell /\
   (fst (Anchor_get m) = Return None /\
    to_text_calls (calls (snd (read_times 1 Anchor_get m))) = 1%nat) /\
   (fst (Tag_get m) = Return None /\
    to_text_calls (calls (snd (read_times 1 Tag_get m))) = 1%nat)).
Proof.
  split; intros m.
  - destruct (lazy_decode_cached_once m 1) as (HA & HT & HV & _).
    destruct (HA (System.literal "a1") eq_refl) as [A1 A2].
    destruct (HT (System.literal "!!str") eq_refl) as [T1 T2].
    destruct (HV (System.literal "x") eq_refl) as [V1 V2].
    repeat split; assumption.
  - destruct (lazy_decode_cached_once m 1) as (_ & _ & _ & HN).
    destruct (HN Sample.hell eq_refl) as (HA & HT & _).
    destruct (HA eq_refl) as [_ A2].
    destruct (HT eq_refl) as [_ T2].
    repeat split; assumption.
Defined.

(** *** Claim C3 *)

(** Counterexample to claim C3 as stated: on a detached event whose value is
    null Length returns no character count; it raises. *)
Lemma Length_detached_null_value_raises :
  let e := ScalarEvent_ctor1 None in
  NativeEvent e = None /\
  fst (Length_get (Sample.start e)) = Throw NullReferenceException /\
  ~ exists n, fst (Length_get (Sample.start e)) = Return n.
Proof.
  cbn. repeat split. intros [n H]. discriminate H.
Qed.

(** The record [Sample.hell] has length 5 and a value of four characters. *)
Lemma Length_get_bound_and_detached_witness :
  (let m := Sample.start (ScalarEvent_ctor_native Sample.hell) in
   NativeEvent (this m) = Some Sample.hell /\
   0 <= scalar_length Sample.hell < 2 ^ 31 /\
   fst (Value_get m) = Return (Some [104; 233; 108; 108]) /\
   fst (Length_get m) = Return 5 /\
   fst ((Value_get ;; Length_get) m) = Return 5) /\
  (let m := Sample.start (ScalarEvent_ctor1 (Some (System.literal "hello"))) in
   NativeEvent (this m) = None /\
   value (this m) = Some (System.literal "hello") /\
   fst (Length_get m) = Return 5).
Proof.
  split; intros m.
  - destruct (Length_get_bound_and_detached m) as [HB _].
    assert (R : 0 <= scalar_length Sample.hell < 2 ^ 31) by (cbn; lia).
    destruct (HB Sample.hell eq_refl) as (H1 & H2 & _ & H4).
    split; [reflexivity|]. split; [exact R|]. split; [reflexivity|].
    split; [rewrite H1, (H4 R); reflexivity | rewrite H2, (H4 R); reflexivity].
  - destruct (Length_get_bound_and_detached m) as [_ HD].
    split; [reflexivity|]. split; [reflexivity|].
    rewrite (HD (System.literal "hello") eq_refl eq_refl). reflexivity.
Defined.

(** *** Claim C4 *)

(** Counterexample to claim C4 as stated: on a detached event with a tag and
    a null value, CreateEvent leaves through the null-reference exception at
    Value->Length, after the tag buffer was allocated and before any buffer
    is released: the block stays live. *)
Lemma CreateEvent_null_value_keeps_buffer :
  let m := Sample.start (ScalarEvent_ctor2 None (Some (System.literal "!!str"))) in
  let m' := snd (CreateEvent (emitter := Sample.succeeding) m) in
  fst (CreateEvent (emitter := Sample.succeeding) m) = Throw NullReferenceException /\
  heap m = ∅ /\
  heap m' !! 1%positive = Some (Sample.bytes "!!str") /\
  heap m' <> heap m.
Proof.
  vm_compute. repeat split. intros H. discriminate H.
Qed.

Lemma CreateEvent_releases_buffers_witness :
  let m := Sample.start
        (ScalarEvent_ctor3 (Some (System.literal "x")) (Some (System.literal "!!str"))
           (Some (System.literal "a1"))) in
  fst (Value_get m) = Return (Some (System.literal "x")) /\
  heap (snd (CreateEvent (emitter := Sample.failing) m)) = heap m /\
  fst (CreateEvent (emitter := Sample.failing) m) = Throw YamlException /\
  output (snd (CreateEvent (emitter := Sample.failing) m)) = output m /\
  heap (snd (CreateEvent (emitter := Sample.succeeding) m)) = heap m /\
  fst (CreateEvent (emitter := Sample.succeeding) m) = Return tt.
Proof.
  intros m. split; [reflexivity|].
  destruct (CreateEvent_releases_buffers (emitter := Sample.failing) m
              (Some (System.literal "a1")) (Some (System.literal "!!str"))
              (System.literal "x") eq_refl eq_refl eq_refl) as (F1 & F2 & _ & _ & F3).
  destruct (CreateEvent_releases_buffers (emitter := Sample.succeeding) m
              (Some (System.literal "a1")) (Some (System.literal "!!str"))
              (System.literal "x") eq_refl eq_refl eq_refl) as (S1 & _ & S2 & _).
  split; [exact F1|]. split; [apply F2; discriminate|].
  split; [apply F3; [discriminate | reflexivity]|].
  split; [exact S1|]. apply S2. reflexivity.
Defined.

(** *** Claim C7 *)

(** Counterexample to claim C7 as stated: Length is not total. On the event
    built by the six-argument constructor with a null value it raises. *)
Lemma Length_not_total :
  fst (Length_get (Sample.start
        (ScalarEvent_ctor6 None (Some (System.literal "!!str"))
           (Some (System.literal "a1")) ScalarStyle.DoubleQuoted false true)))
  = Throw NullReferenceException.
Proof. reflexivity. Qed.

Lemma read_accessors_total_witness :
  let m := Sample.start (ScalarEvent_ctor_native Sample.hell) in
  (NativeEvent (this m) <> None \/ value (this m) <> None) /\
  (exists n, fst (Length_get m) = Return n) /\
  to_text None = None /\
  (anchor (this m) = None /\ scalar_anchor Sample.hell = None /\
   fst (Anchor_get m) = Return None) /\
  (tag (this m) = None /\ scalar_tag Sample.hell = None /\
   fst (Tag_get m) = Return None).
Proof.
  intros m.
  destruct (read_accessors_total m) as (_ & _ & _ & _ & _ & _ & HL & HA).
  assert (Hb : NativeEvent (this m) <> None \/ value (this m) <> None)
    by (left; discriminate).
  destruct (HA Sample.hell eq_refl eq_refl) as [H1 H2].
  split; [exact Hb|]. split; [exact (HL Hb)|]. split; [reflexivity|].
  split; (split; [reflexivity|]; split; [reflexivity|]).
  - exact (H1 eq_refl eq_refl).
  - exact (H2 eq_refl eq_refl).
Defined.

(** *** Claim C8 *)

(** Counterexample to claim C8 as stated: on a detached event whose value is
    null ToString returns no string; it raises when it reads Length. *)
Lemma ToString_null_value_raises :
  fst (ToString (Sample.start (ScalarEvent_ctor1 None))) = Throw NullReferenceException.
Proof. reflexivity. Qed.

Lemma ToString_rendering_witness :
  let m := Sample.start
        (ScalarEvent_ctor6 (Some (System.literal "x")) (Some (System.literal "!!str"))
           (Some (System.literal "a1")) ScalarStyle.DoubleQuoted false true) in
  fst (Length_get m) = Return 1 /\
  fst (ToString m)
  = Return (System.literal
      "ScalarEvent a1 !!str x 1 plain_explicit quoted_explicit DoubleQuoted").
Proof.
  intros m. split; [reflexivity|].
  destruct (ToString_rendering m (Some (System.literal "a1"))
              (Some (System.literal "!!str")) (Some (System.literal "x")) 1
              eq_refl eq_refl eq_refl eq_refl) as [H _].
  rewrite H. reflexivity.
Defined.

(** *** Claim C9 *)

Lemma detached_value_dereference_witness :
  (let m := Sample.start (ScalarEvent_ctor1 (Some (System.literal "hello"))) in
   NativeEvent (this m) = None /\
   fst (Length_get m) = Return 5 /\
   fst (CreateEvent (emitter := Sample.succeeding) m) <> Throw NullReferenceException) /\
  (let m := Sample.start (ScalarEvent_ctor1 None) in
   NativeEvent (this m) = None /\
   fst (Length_get m) = Throw NullReferenceException /\
   fst (CreateEvent (emitter := Sample.succeeding) m) = Throw NullReferenceException).
Proof.
  split; intros m.
  - destruct (detached_value_dereference (emitter := Sample.succeeding) m eq_refl)
      as (_ & HC & HV).
    split; [reflexivity|].
    split; [exact (proj1 (HV (System.literal "hello") eq_refl))|].
    intros H. apply HC in H. discriminate H.
  - destruct (detached_value_dereference (emitter := Sample.succeeding) m eq_refl)
      as (HL & HC & _).
    split; [reflexivity|].
    split; [apply HL; reflexivity | apply HC; reflexivity].
Defined.

(** *** Runs of the further properties *)

Lemma CreateEvent_null_value_path_witness :
  let m := Sample.start (ScalarEvent_ctor3 None (Some (System.literal "!!str"))
                           (Some (System.literal "a1"))) in
  let m' := snd (CreateEvent (emitter := Sample.succeeding) m) in
  fst (Value_get m) = Return None /\
  fst (CreateEvent (emitter := Sample.succeeding) m) = Throw NullReferenceException /\
  delete_count (calls m') = 0%nat /\
  size (heap m') = 2%nat.
Proof.
  intros m m'.
  destruct (CreateEvent_null_value_path (converter := Sample.utf8) (emitter := Sample.succeeding) m
              (Some (System.literal "a1")) (Some (System.literal "!!str"))
              eq_refl eq_refl eq_refl) as (H1 & _ & H3 & _ & H5 & _).
  split; [reflexivity|]. split; [exact H1|]. split; [exact H3 | exact H5].
Defined.


Lemma CreateEvent_decodes_uncached_once_witness :
  (let m := Sample.start (ScalarEvent_ctor_native Sample.anchored) in
   NativeEvent (this m) = Some Sample.anchored /\
   fst (Value_get m) = Return (Some (System.literal "x")) /\
   to_text_calls (calls (snd (CreateEvent (emitter := Sample.succeeding) m))) = 3%nat) /\
  (let m := Sample.start (ScalarEvent_ctor_native Sample.blank) in
   NativeEvent (this m) = Some Sample.blank /\
   fst (Value_get m) = Return None /\
   to_text_calls (calls (snd (CreateEvent (emitter := Sample.succeeding) m))) = 4%nat).
Proof.
  split; intros m.
  - destruct (CreateEvent_decodes_uncached_once (converter := Sample.utf8) (emitter := Sample.succeeding) m
                Sample.anchored eq_refl) as [H _].
    split; [reflexivity|]. split; [reflexivity|].
    exact (H (System.literal "x") eq_refl).
  - destruct (CreateEvent_decodes_uncached_once (converter := Sample.utf8) (emitter := Sample.succeeding) m
                Sample.blank eq_refl) as [_ H].
    split; [reflexivity|]. split; [reflexivity|].
    exact (H eq_refl).
Defined.

Lemma CreateEvent_repeatable_witness :
  let m := Sample.start (ScalarEvent_ctor_native Sample.hello) in
  let m2 := snd (CreateEvent (emitter := Sample.succeeding)
                   (snd (CreateEvent (emitter := Sample.succeeding) m))) in
  let call := Call_scalar_event_initialize
                None (Some (Sample.bytes "!!str")) (Some (Sample.bytes "hello"))
                5 1 0 YAML_ANY_SCALAR_STYLE in
  fst (Value_get m) = Return (Some (System.literal "hello")) /\
  initialize_calls (calls m2) = [call; call] /\
  heap m2 = heap m.
Proof.
  intros m m2 call. split; [reflexivity|].
  destruct (CreateEvent_repeatable (converter := Sample.utf8) (emitter := Sample.succeeding) m
              None (Some (System.literal "!!str")) (System.literal "hello")
              eq_refl eq_refl eq_refl) as (H1 & _ & H3).
  split; [exact H1 | exact H3].
Defined.

Lemma CreateEvent_null_reference_iff_witness :
  (let m := Sample.start (ScalarEvent_ctor_native Sample.blank) in
   fst (Value_get m) = Return None /\
   fst (CreateEvent (emitter := Sample.succeeding) m) = Throw NullReferenceException) /\
  (let m := Sample.start (ScalarEvent_ctor_native Sample.hello) in
   fst (CreateEvent (emitter := Sample.failing) m) <> Throw NullReferenceException /\
   exists call, initialize_calls (calls (snd (CreateEvent (emitter := Sample.failing) m)))
                = [call]).
Proof.
  split; intros m.
  - destruct (CreateEvent_null_reference_iff (converter := Sample.utf8) (emitter := Sample.succeeding) m)
      as (H & _ & _).
    split; [reflexivity | apply H; reflexivity].
  - destruct (CreateEvent_null_reference_iff (converter := Sample.utf8) (emitter := Sample.failing) m)
      as (_ & _ & H).
    assert (N : fst (CreateEvent (emitter := Sample.failing) m)
                <> Throw NullReferenceException) by discriminate.
    split; [exact N | exact (proj1 H N)].
Defined.

Lemma ToString_raises_iff_witness :
  let m := Sample.start (ScalarEvent_ctor2 None (Some (System.literal "!!str"))) in
  (NativeEvent (this m) = None /\ value (this m) = None) /\
  (exists x, fst (ToString m) = Throw x) /\
  snd (ToString m) = m.
Proof.
  intros m. destruct (ToString_raises_iff (converter := Sample.utf8) m) as [H1 H2].
  assert (D : NativeEvent (this m) = None /\ value (this m) = None)
    by (split; reflexivity).
  split; [exact D|]. split; [exact (proj2 H1 D)|].
  exact (proj2 (H2 NullReferenceException eq_refl)).
Defined.

Lemma detached_never_changes_witness :
  let m := Sample.start (ScalarEvent_ctor3 (Some (System.literal "x"))
                           (Some (System.literal "!!str"))
                           (Some (System.literal "a1"))) in
  NativeEvent (this m) = None /\
  snd (ToString m) = m /\
  this (snd (CreateEvent (emitter := Sample.succeeding) m)) = this m /\
  to_text_calls (calls (snd (CreateEvent (emitter := Sample.succeeding) m))) = 0%nat.
Proof.
  intros m.
  destruct (detached_never_changes (converter := Sample.utf8) (emitter := Sample.succeeding) m eq_refl)
    as (_ & _ & _ & H4 & H5 & H6).
  split; [reflexivity|]. split; [exact H4|]. split; [exact H5 | exact H6].
Defined.

Lemma cached_text_outlives_record_witness :
  let m := Sample.start (ScalarEvent_ctor_native Sample.hello) in
  let m2 := on (with_NativeEvent (Some Sample.anchored) (this (snd (Value_get m))))
              (snd (Value_get m)) in
  fst (Value_get m) = Return (Some (System.literal "hello")) /\
  fst (Value_get m2) = Return (Some (System.literal "hello")) /\
  fst (Length_get m2) = Return 1 /\
  fst (Anchor_get m2) = Return (Some (System.literal "a1")).
Proof.
  intros m m2.
  destruct (cached_text_outlives_record (converter := Sample.utf8) m (System.literal "hello") Sample.anchored
              eq_refl) as (H1 & H2 & H3 & _).
  split; [reflexivity|]. split; [fold m2 in H1; rewrite H1; reflexivity|].
  split; [exact H2 | exact (H3 eq_refl)].
Defined.

Lemma CreateEvent_of_parsed_record_witness :
  let m := on (ScalarEvent_ctor_native Sample.hell) (Sample.start (ScalarEvent_ctor1 None)) in
  to_text (scalar_value Sample.hell) = Some [104; 233; 108; 108] /\
  initialize_calls (calls (snd (CreateEvent (emitter := Sample.succeeding) m)))
    = [Call_scalar_event_initialize None None
         (Some ["h"%byte; xc3; xa9; "l"%byte; "l"%byte]) 4 1 1 YAML_ANY_SCALAR_STYLE] /\
  fst (Length_get m) = Return 5.
Proof.
  intros m. split; [reflexivity|].
  destruct (CreateEvent_of_parsed_record (converter := Sample.utf8) (emitter := Sample.succeeding) Sample.hell
              (Sample.start (ScalarEvent_ctor1 None)) [104; 233; 108; 108] eq_refl)
    as (H1 & H2 & _).
  split; [exact H1 | exact H2].
Defined.
